(** * Stock-Dashboard: a shallow embedding of [src/app.py]

    The dashboard is a Streamlit script that glues three libraries together:
    yfinance (market data as a pandas [DataFrame]), requests + BeautifulSoup
    (news scraping) and plotly (charts).  The development below embeds

    - the part of pandas the script relies on (column lookup, [to_numeric],
      [dropna], [sort_index], [Series.max] / [Series.min]),
    - the part of BeautifulSoup it relies on ([find_all], [find],
      [get_text]),
    - the two helper functions [get_stock_data] and [scrape_market_news],
    - the module-level analysis block (cleaning, key metrics, charts, table),

    and proves the properties the specification states about them.

    Prices are IEEE-754 binary64 numbers, as in numpy; they are modelled with
    Rocq's primitive floats, whose NaN plays the role of pandas' missing
    value.  What the script shows on the page is modelled as a log of
    [event]s; Python exceptions are modelled by the [Raised] outcome.

    The answers of the outside world (the market-data provider, the news
    site, the HTML parser) and two text functions of the libraries
    ([str.strip], the number parser of [pd.to_numeric]) are parameters,
    gathered in [externals].  Left out: the [st.cache_data] decorators, the
    spinner, the page header and the input widgets of the sidebar, the
    layout options of the charts, and the text of formatted numbers (a
    formatted number is kept as the number with its format, see [shown]). *)

From Stdlib Require Import String Ascii ZArith Bool Floats Lia List.
From Stdlib Require Import Permutation Sorted DecimalString.

#[local] Set Warnings "-register-all".
Import ListNotations.

Open Scope string_scope.
Open Scope list_scope.

(** ** Python exceptions *)

(** The exception classes the script meets.  [BaseException] stands for
    the classes outside [Exception] ([KeyboardInterrupt], [SystemExit]);
    [HTTPError] is a subclass of [RequestException]; every class but
    [BaseException] is a subclass of [Exception]. *)
Inductive exc_type : Type :=
  | BaseException
  | Exception
  | RequestException
  | HTTPError
  | KeyError
  | TypeError
  | ValueError
  | IndexError
  | ZeroDivisionError.

Record exception : Type := mk_exception {
  exc_class : exc_type;
  exc_str : string          (* str(e) *)
}.

Definition isinstance_Exception (e : exception) : bool :=
  match exc_class e with
  | BaseException => false
  | _ => true
  end.

Definition isinstance_RequestException (e : exception) : bool :=
  match exc_class e with
  | RequestException | HTTPError => true
  | _ => false
  end.

(** [except (IndexError, TypeError, ValueError)] *)
Definition isinstance_metric_error (e : exception) : bool :=
  match exc_class e with
  | IndexError | TypeError | ValueError => true
  | _ => false
  end.

(** The result of evaluating a Python expression: a value, or an exception
    on its way up. *)
Inductive outcome (A : Type) : Type :=
  | Returned (a : A)
  | Raised (e : exception).

Arguments Returned {A} a.
Arguments Raised {A} e.

Definition obind {A B : Type} (m : outcome A) (k : A -> outcome B) : outcome B :=
  match m with
  | Returned a => k a
  | Raised e => Raised e
  end.

Notation "x <~ m ;; k" := (obind m (fun x => k))
  (at level 61, m at next level, right associativity).

(** ** pandas *)

Module Pandas.

(** A cell of a frame: a float64 (NaN is the missing value), or a Python
    object that is not a number (a string, or [None]).  A column all of
    whose cells are [Float] is a float64 column; a column with a string or
    [None] is an object column, whose numbers are Python floats.  Columns
    of integers or booleans are outside the model: the prices of the
    provider are float64. *)
Inductive cell : Type :=
  | Float (x : float)
  | Str (s : string)
  | PyNone.

Definition NaN : cell := Float nan.

(** Column labels: a flat index of names, or a multi-level index whose
    entries are tuples (level 0, remaining levels).  yfinance returns the
    latter, with the field name at level 0 and the ticker below. *)
Inductive Index : Type :=
  | FlatIndex (labels : list string)
  | MultiIndex (tuples : list (string * list string)).

(** One row: its index label (the trading day, as a day number) and its
    cells, one per column, in column order. *)
Record Row : Type := mk_row {
  label : Z;
  cells : list cell
}.

Record DataFrame : Type := mk_frame {
  columns : Index;
  rows : list Row
}.

(** [columns.get_level_values(0)] *)
Definition get_level_values0 (ix : Index) : list string :=
  match ix with
  | FlatIndex labels => labels
  | MultiIndex tuples => map fst tuples
  end.

Definition column_names (df : DataFrame) : list string :=
  get_level_values0 (columns df).

(** [df.empty]: some axis has length 0. *)
Definition empty (df : DataFrame) : bool :=
  match column_names df, rows df with
  | [], _ => true
  | _, [] => true
  | _, _ => false
  end.

(** [pd.isna] on a cell. *)
Definition isna (c : cell) : bool :=
  match c with
  | Float x => PrimFloat.is_nan x
  | Str _ => false
  | PyNone => true
  end.

(** The cell of row [r] in the column at position [i].  In a frame every
    row has a cell for every column; the default only makes the function
    total. *)
Definition cell_at (i : nat) (r : Row) : cell := nth i (cells r) NaN.

(** [columns.get_indexer_for([col])]: every position that carries the
    label. *)
Definition get_indexer_for (names : list string) (col : string) : list nat :=
  filter (fun i => String.eqb (nth i names "") col) (seq 0 (length names)).

(** [col in data.columns] *)
Definition contains (names : list string) (col : string) : bool :=
  existsb (String.eqb col) names.

(** The position of the column behind [data[col]] used as a Series:
    [KeyError] when the label is absent; when the label is duplicated
    [data[col]] is a frame, and the Series operation applied to it
    ([pd.to_numeric], number formatting) raises [TypeError]. *)
Definition locate (names : list string) (col : string) : outcome nat :=
  match get_indexer_for names col with
  | [] => Raised (mk_exception KeyError ("'" ++ col ++ "'"))
  | [i] => Returned i
  | _ => Raised (mk_exception TypeError "arg must be a list, tuple, 1-d array, or Series")
  end.

(** [data[col]] as a Series of cells. *)
Definition get_series (df : DataFrame) (col : string) : outcome (list cell) :=
  i <~ locate (column_names df) col ;;
  Returned (map (cell_at i) (rows df)).

(** [series.iloc[k]] with Python's negative indices. *)
Definition iloc (s : list cell) (k : Z) : outcome cell :=
  let n := Z.of_nat (length s) in
  let k' := if (k <? 0)%Z then (n + k)%Z else k in
  if ((0 <=? k') && (k' <? n))%Z%bool
  then Returned (nth (Z.to_nat k') s NaN)
  else Raised (mk_exception IndexError "single positional indexer is out-of-bounds").

(** *** Cleaning *)

(** Lines 97-98: a multi-level column index is replaced by its level 0. *)
Definition flatten_columns (df : DataFrame) : DataFrame :=
  match columns df with
  | MultiIndex tuples => mk_frame (FlatIndex (get_level_values0 (MultiIndex tuples))) (rows df)
  | FlatIndex _ => df
  end.

(** Replace the [i]-th element of a list by its image. *)
Fixpoint map_nth {A : Type} (f : A -> A) (i : nat) (l : list A) {struct l} : list A :=
  match l, i with
  | [], _ => []
  | x :: l', O => f x :: l'
  | x :: l', S i' => x :: map_nth f i' l'
  end.

Section ToNumeric.

(** pandas' parser of numbers written as text; [None] when the text is
    not a number. *)
Variable float_of_str : string -> option float.

(** [pd.to_numeric(_, errors='coerce')] on one cell of a float64 or
    object column: a number stays, a text becomes the number it spells or
    NaN, [None] becomes NaN. *)
Definition to_numeric (c : cell) : cell :=
  match c with
  | Float x => Float x
  | Str s => match float_of_str s with
             | Some x => Float x
             | None => NaN
             end
  | PyNone => NaN
  end.

(** [data[col] = f(data[col])] for the column at position [i]. *)
Definition assign_column (f : cell -> cell) (i : nat) (df : DataFrame) : DataFrame :=
  mk_frame (columns df)
           (map (fun r => mk_row (label r) (map_nth f i (cells r))) (rows df)).

(** Lines 103-104, for one [col] of [numeric_cols]. *)
Definition coerce_column (df : DataFrame) (col : string) : outcome DataFrame :=
  if contains (column_names df) col
  then i <~ locate (column_names df) col ;;
       Returned (assign_column to_numeric i df)
  else Returned df.

Definition numeric_cols : list string :=
  ["Open"; "High"; "Low"; "Close"; "Volume"].

(** Lines 101-104: the loop over [numeric_cols]. *)
Fixpoint coerce_columns (cols : list string) (df : DataFrame) : outcome DataFrame :=
  match cols with
  | [] => Returned df
  | col :: cols' => df' <~ coerce_column df col ;; coerce_columns cols' df'
  end.

End ToNumeric.

(** [repr] of a list of strings, as in the message of pandas' [KeyError]. *)
Definition repr_list (l : list string) : string :=
  ("[" ++ String.concat ", " (map (fun s => "'" ++ s ++ "'") l) ++ "]")%string.

(** Every cell of the row at the given positions is missing. *)
Definition all_na (ixs : list nat) (r : Row) : bool :=
  forallb (fun i => isna (cell_at i r)) ixs.

(** [data.dropna(subset=subset, how='all', inplace=True)]: [KeyError],
    naming the labels of [subset] that are not columns, when there is one;
    otherwise the rows whose cells in the [subset] columns are all missing
    go. *)
Definition dropna_all (subset : list string) (df : DataFrame) : outcome DataFrame :=
  let names := column_names df in
  match filter (fun col => negb (contains names col)) subset with
  | [] =>
      let ixs := flat_map (get_indexer_for names) subset in
      Returned (mk_frame (columns df) (filter (fun r => negb (all_na ixs r)) (rows df)))
  | absent => Raised (mk_exception KeyError (repr_list absent))
  end.

Definition ohlc : list string := ["Open"; "High"; "Low"; "Close"].

(** *** Sorting by index *)

Fixpoint insert_desc (r : Row) (l : list Row) : list Row :=
  match l with
  | [] => [r]
  | x :: l' => if (label x <=? label r)%Z then r :: l else x :: insert_desc r l'
  end.

(** [df.sort_index(ascending=False)]: rows by decreasing label.  Rows with
    equal labels keep their relative order, as under a stable sort; pandas
    leaves their order to the sort kind, and the provider's dates are
    distinct. *)
Definition sort_index_desc (df : DataFrame) : DataFrame :=
  mk_frame (columns df) (fold_right insert_desc [] (rows df)).

(** *** Reductions *)

Definition fmax (x y : float) : float := if (x <? y)%float then y else x.
Definition fmin (x y : float) : float := if (y <? x)%float then y else x.

Definition notnan (x : float) : bool := negb (PrimFloat.is_nan x).

(** A reduction of the values that are not NaN ([skipna=True]); NaN when
    there is none.  Which of two values that compare equal (+0 and -0)
    pandas keeps depends on the back end that reduces (numpy, bottleneck)
    and on the order in which it visits the values; this one visits them
    left to right and keeps the first.  The script's reductions are
    therefore parameters ([series_max] and [series_min] below), and
    [nanmax] and [nanmin] are the instance the examples run on. *)
Definition nan_reduce (op : float -> float -> float) (xs : list float) : float :=
  match filter notnan xs with
  | [] => nan
  | x :: xs' => fold_left op xs' x
  end.

Definition nanmax : list float -> float := nan_reduce fmax.
Definition nanmin : list float -> float := nan_reduce fmin.

(** The numbers of a Series as [max] and [min] see them: [None] counts as
    missing, like NaN; a Series that holds a string has no such view. *)
Fixpoint float_values (s : list cell) : option (list float) :=
  match s with
  | [] => Some []
  | Float x :: s' => option_map (cons x) (float_values s')
  | PyNone :: s' => option_map (cons nan) (float_values s')
  | Str _ :: _ => None
  end.

(** The Series has the object dtype: it holds a string or [None]. *)
Definition is_object (s : list cell) : bool :=
  existsb (fun c => match c with
                    | Float _ => false
                    | _ => true
                    end) s.

End Pandas.

(** ** BeautifulSoup *)

Module Bs4.

(** A parsed page.  A [Tag] carries its name, the tokens of its [class]
    attribute (bs4 keeps this attribute as a list), its other attributes
    and its children.  [NavigableString] is a piece of text (or CDATA);
    [SpecialString] stands for the strings [get_text] leaves out:
    comments, declarations, and the text of script and style elements. *)
Inductive node : Type :=
  | Tag (name : string) (classes : list string)
        (attrs : list (string * string)) (contents : list node)
  | NavigableString (s : string)
  | SpecialString (s : string).

(** [tag.descendants]: the nodes below a node, in document order. *)
Fixpoint descendants (n : node) : list node :=
  match n with
  | Tag _ _ _ contents => flat_map (fun c => c :: descendants c) contents
  | _ => []
  end.

Definition is_tag_named (name : string) (n : node) : bool :=
  match n with
  | Tag name' _ _ _ => String.eqb name' name
  | _ => false
  end.

Definition has_class (class_ : string) (n : node) : bool :=
  match n with
  | Tag _ classes _ _ => existsb (String.eqb class_) classes
  | _ => false
  end.

(** [tag.find_all(name, class_=class_, limit=limit)]: the search walks
    the descendants in document order and stops at the limit. *)
Definition find_all (n : node) (name class_ : string) (limit : nat) : list node :=
  firstn limit
    (filter (fun d => is_tag_named name d && has_class class_ d) (descendants n)).

(** [tag.find(name)]: the first descendant tag of that name, if any. *)
Definition find (n : node) (name : string) : option node :=
  List.find (is_tag_named name) (descendants n).

(** [tag.attrs] as an association list; [tag[key]] is the first binding. *)
Fixpoint attr_get (attrs : list (string * string)) (key : string) : option string :=
  match attrs with
  | [] => None
  | (k, v) :: attrs' => if String.eqb k key then Some v else attr_get attrs' key
  end.

Definition attrs_of (n : node) : list (string * string) :=
  match n with
  | Tag _ _ attrs _ => attrs
  | _ => []
  end.

Section GetText.

(** Python's [str.strip()]. *)
Variable str_strip : string -> string.

(** The strings [get_text(strip=True)] joins: every text descendant,
    stripped, the ones that are empty after stripping left out. *)
Definition stripped_strings (n : node) : list string :=
  flat_map (fun d => match d with
                     | NavigableString s =>
                         let s' := str_strip s in
                         if String.eqb s' "" then [] else [s']
                     | _ => []
                     end)
           (descendants n).

(** [tag.get_text(strip=True)] *)
Definition get_text (n : node) : string :=
  String.concat "" (stripped_strings n).

End GetText.

End Bs4.

(** ** requests *)

Record Response : Type := mk_response {
  status_code : Z;
  reason : string;
  resp_url : string;
  content : string
}.

Definition str_of_int (z : Z) : string :=
  DecimalString.NilZero.string_of_int (Z.to_int z).

(** [response.raise_for_status()] *)
Definition raise_for_status (r : Response) : outcome unit :=
  if ((400 <=? status_code r) && (status_code r <? 500))%Z%bool then
    Raised (mk_exception HTTPError
              (str_of_int (status_code r) ++ " Client Error: " ++ reason r
               ++ " for url: " ++ resp_url r))
  else if ((500 <=? status_code r) && (status_code r <? 600))%Z%bool then
    Raised (mk_exception HTTPError
              (str_of_int (status_code r) ++ " Server Error: " ++ reason r
               ++ " for url: " ++ resp_url r))
  else Returned tt.

(** ** What the script does to the outside *)

Import Pandas.

(** How a number is shown: [money x] is [f"{x:,.2f}"], [percent x] is
    [f"{x:.2f}%"], [text s] is a literal. *)
Inductive shown : Type :=
  | money (x : float)
  | percent (x : float)
  | text (s : string).

(** plotly traces *)
Inductive trace : Type :=
  | Candlestick (x : list Z) (open high low close : list cell)
  | Bar (x : list Z) (y : list cell).

Inductive event : Type :=
  | yf_download_call (ticker : string) (start_date end_date : Z)
  | http_get (url : string) (headers : list (string * string))
  | st_warning (body : string)
  | st_error (body : string)
  | st_info (body : string)
  | st_subheader (body : string)
  | st_markdown (body : string)
  | st_columns (n : nat)
  | st_metric (column : nat) (label : string) (value : shown) (delta : option shown)
  | st_plotly_chart (data : trace) (title : string)
  | st_dataframe (sorted : DataFrame)
  | st_download_button (label : string) (csv_of : DataFrame) (file_name : string).

(** The libraries and services the script calls, as far as the script can
    observe them. *)
Record externals : Type := mk_externals {
  yf_download : string -> Z -> Z -> outcome DataFrame;
  requests_get : string -> list (string * string) -> outcome Response;
  html_parser : string -> outcome Bs4.node;   (* BeautifulSoup(content, 'html.parser') *)
  str_strip : string -> string;               (* str.strip() *)
  float_of_str : string -> option float;      (* the number a text spells, if any *)
  series_max : list float -> float;           (* Series.max() of these numbers *)
  series_min : list float -> float            (* Series.min() of these numbers *)
}.

(** A script fragment: what it put on the page or sent out, and how it
    ended. *)
Definition script (A : Type) : Type := (list event * outcome A)%type.

Definition ret {A : Type} (a : A) : script A := ([], Returned a).

Definition bind {A B : Type} (m : script A) (k : A -> script B) : script B :=
  match m with
  | (l, Returned a) => let (l', o) := k a in (l ++ l', o)
  | (l, Raised e) => (l, Raised e)
  end.

Definition emit (ev : event) : script unit := ([ev], Returned tt).

Definition lift {A : Type} (o : outcome A) : script A := ([], o).

(** [try: m except ...]: [handler e] is the body of the first clause that
    matches [e], [None] when no clause does. *)
Definition try_except {A : Type} (m : script A)
    (handler : exception -> option (script A)) : script A :=
  match m with
  | (l, Raised e) =>
      match handler e with
      | Some (l', o) => (l ++ l', o)
      | None => (l, Raised e)
      end
  | _ => m
  end.

Notation "x <- m ;; k" := (bind m (fun x => k))
  (at level 61, m at next level, right associativity).
Notation "m ;;; k" := (bind m (fun _ => k))
  (at level 61, right associativity).

(** ** [get_stock_data] (lines 19-30) *)

Definition get_stock_data (X : externals) (ticker_symbol : string)
    (start_date end_date : Z) : script (option DataFrame) :=
  try_except
    (emit (yf_download_call ticker_symbol start_date end_date) ;;;
     stock_data <- lift (yf_download X ticker_symbol start_date end_date) ;;
     if empty stock_data then
       emit (st_warning ("No data found for " ++ ticker_symbol
                         ++ ". It might be delisted or an incorrect ticker.")) ;;;
       ret None
     else ret (Some stock_data))
    (fun e =>
       if isinstance_Exception e then
         Some (emit (st_error ("Error fetching data for " ++ ticker_symbol
                               ++ ": " ++ exc_str e)) ;;;
               ret None)
       else None).

(** ** [scrape_market_news] (lines 32-58) *)

Record news_item : Type := mk_news {
  headline : string;
  link : string
}.

Definition default_url : string :=
  "https://economictimes.indiatimes.com/markets/stocks/news".

Definition base_origin : string := "https://economictimes.indiatimes.com".

Definition user_agent : string :=
  "Mozilla/5.0 (Windows NT 10.0; Win64; x64) AppleWebKit/537.36 (KHTML, like Gecko) Chrome/58.0.3029.110 Safari/537.36".

(** Lines 45-51, the body of the loop: the item a story block contributes,
    if any. *)
Definition story_item (X : externals) (story : Bs4.node) : option news_item :=
  match Bs4.find story "h3", Bs4.find story "a" with
  | Some headline_tag, Some link_tag =>
      match Bs4.attr_get (Bs4.attrs_of link_tag) "href" with
      | Some href =>
          Some (mk_news (Bs4.get_text (str_strip X) headline_tag)
                        (base_origin ++ href))
      | None => None
      end
  | _, _ => None
  end.

(** Lines 43-51: [news_list] grows by [append] along the stories. *)
Definition collect_news (X : externals) (stories : list Bs4.node) : list news_item :=
  fold_left (fun news_list story =>
               match story_item X story with
               | Some item => news_list ++ [item]
               | None => news_list
               end)
            stories [].

Definition scrape_market_news (X : externals) (url : string) : script (list news_item) :=
  try_except
    (let headers := [("User-Agent", user_agent)] in
     emit (http_get url headers) ;;;
     response <- lift (requests_get X url headers) ;;
     lift (raise_for_status response) ;;;
     soup <- lift (html_parser X (content response)) ;;
     let stories := Bs4.find_all soup "div" "eachStory" 10 in
     ret (collect_news X stories))
    (fun e =>
       if isinstance_RequestException e then
         Some (emit (st_error ("Failed to retrieve news. Error: " ++ exc_str e)) ;;;
               ret [])
       else if isinstance_Exception e then
         Some (emit (st_error ("An error occurred during news scraping: " ++ exc_str e)) ;;;
               ret [])
       else None).

(** Lines 78-84: the news panel of the sidebar. *)
Definition news_panel (X : externals) : script unit :=
  news <- scrape_market_news X default_url ;;
  match news with
  | [] => emit (st_warning "Could not fetch market news at the moment.")
  | _ =>
      fold_left (fun acc item =>
                   acc ;;;
                   emit (st_markdown ("**[" ++ headline item ++ "](" ++ link item ++ ")**")) ;;;
                   emit (st_markdown "---"))
                news (ret tt)
  end.

(** ** The analysis block (lines 90-196) *)

(** Lines 97-107: the data cleaning. *)
Definition clean (X : externals) (data : DataFrame) : outcome DataFrame :=
  let data := flatten_columns data in
  data <~ coerce_columns (float_of_str X) numeric_cols data ;;
  dropna_all ohlc data.

(** The number behind a cell formatted with a [.2f] specification: a
    string refuses the format code, [None] refuses any format string. *)
Definition format_arg (c : cell) : outcome float :=
  match c with
  | Float x => Returned x
  | Str _ => Raised (mk_exception ValueError "Unknown format code 'f' for object of type 'str'")
  | PyNone => Raised (mk_exception TypeError "unsupported format string passed to NoneType.__format__")
  end.

(** The number behind a cell used as an operand of float arithmetic. *)
Definition operand (c : cell) : outcome float :=
  match c with
  | Float x => Returned x
  | _ => Raised (mk_exception TypeError "unsupported operand type(s)")
  end.

(** [series.max()] / [series.min()] shown with [.2f]; NaN and [None] are
    skipped.  When the Series holds a string, the comparison of the string
    with a number raises [TypeError], or the extremum is a string that the
    format refuses with [ValueError]: both end in the same [except] clause,
    and the model raises [TypeError]. *)
Definition reduce_series (reduce : list float -> float) (s : list cell) : outcome float :=
  match float_values s with
  | Some xs => Returned (reduce xs)
  | None => Raised (mk_exception TypeError "'>=' not supported between instances of 'str' and 'float'")
  end.

(** [a / b] on two numbers of a Series.  In a float64 Series they are
    numpy float64 and the division follows IEEE 754 (a division by zero
    gives an infinity or NaN); in an object Series they are Python floats,
    whose division by zero raises. *)
Definition divide (object_dtype : bool) (a b : float) : outcome float :=
  if object_dtype && (b =? 0)%float
  then Raised (mk_exception ZeroDivisionError "float division by zero")
  else Returned (a / b)%float.

Definition rupee (s : string) : string := s ++ " (₹)".

(** Lines 114-129: the key metrics. *)
Definition key_metrics (X : externals) (data : DataFrame) : script unit :=
  try_except
    (close <- lift (get_series data "Close") ;;
     latest_cell <- lift (iloc close (-1)) ;;
     latest_price <- lift (format_arg latest_cell) ;;
     emit (st_metric 1 (rupee "Last Price") (money latest_price) None) ;;;
     (if (1 <? length close)%nat then
        prev_cell <- lift (iloc close (-2)) ;;
        prev_price <- lift (operand prev_cell) ;;
        let price_change := (latest_price - prev_price)%float in
        ratio <- lift (divide (is_object close) price_change prev_price) ;;
        let percent_change := (ratio * 100)%float in
        emit (st_metric 2 (rupee "Change") (money price_change)
                        (Some (percent percent_change)))
      else
        emit (st_metric 2 (rupee "Change") (text "N/A") (Some (text "N/A")))) ;;;
     high <- lift (get_series data "High") ;;
     period_high <- lift (reduce_series (series_max X) high) ;;
     emit (st_metric 3 (rupee "Period High") (money period_high) None) ;;;
     low <- lift (get_series data "Low") ;;
     period_low <- lift (reduce_series (series_min X) low) ;;
     emit (st_metric 4 (rupee "Period Low") (money period_low) None))
    (fun e =>
       if isinstance_metric_error e then
         Some (emit (st_error "Not enough data to calculate metrics."))
       else None).

(** Lines 109-191: what is rendered from the cleaned frame. *)
Definition render (X : externals) (ticker_input : string) (data : DataFrame) : script unit :=
  if negb (empty data) then
    emit (st_subheader "Key Performance Metrics") ;;;
    emit (st_columns 4) ;;;
    key_metrics X data ;;;
    emit (st_markdown "<hr>") ;;;
    emit (st_subheader "Price Action: Candlestick Chart") ;;;
    open <- lift (get_series data "Open") ;;
    high <- lift (get_series data "High") ;;
    low <- lift (get_series data "Low") ;;
    close <- lift (get_series data "Close") ;;
    emit (st_plotly_chart (Candlestick (map label (rows data)) open high low close)
                          (ticker_input ++ " Price Movement")) ;;;
    emit (st_subheader "Trading Volume Analysis") ;;;
    volume <- lift (get_series data "Volume") ;;
    emit (st_plotly_chart (Bar (map label (rows data)) volume)
                          (ticker_input ++ " Trading Volume Over Time")) ;;;
    emit (st_subheader "Historical Data") ;;;
    emit (st_dataframe (sort_index_desc data)) ;;;
    emit (st_download_button "Download Data as CSV" data (ticker_input ++ "_data.csv"))
  else
    emit (st_error "No valid data found after cleaning. Please check the ticker or date range.").

(** Lines 94-194: what the script does with the result of the fetch. *)
Definition present (X : externals) (ticker_input : string)
    (data : option DataFrame) : script unit :=
  match data with
  | Some df =>
      if negb (empty df) then
        cleaned <- lift (clean X df) ;;
        render X ticker_input cleaned
      else
        emit (st_error "Could not retrieve data. Please confirm the ticker symbol and selected date range.")
  | None =>
      emit (st_error "Could not retrieve data. Please confirm the ticker symbol and selected date range.")
  end.

(** Lines 90-196. *)
Definition analysis (X : externals) (analyze_button : bool) (ticker_input : string)
    (start_date end_date : Z) : script unit :=
  if analyze_button && negb (String.eqb ticker_input "") then
    data <- get_stock_data X ticker_input start_date end_date ;;
    present X ticker_input data
  else
    emit (st_info "Enter a stock ticker and click 'Analyze Stock' to see the dashboard.").

(** ** Sample data *)

(** Stripping of the blanks of ASCII, the instance of [str.strip] used in
    the examples. *)
Definition is_blank (c : ascii) : bool :=
  let n := nat_of_ascii c in
  ((9 <=? n) && (n <=? 13) || (28 <=? n) && (n <=? 32))%nat.

Fixpoint lstrip (s : string) : string :=
  match s with
  | String c s' => if is_blank c then lstrip s' else s
  | EmptyString => EmptyString
  end.

Fixpoint rstrip (s : string) : string :=
  match s with
  | String c s' =>
      match rstrip s' with
      | EmptyString => if is_blank c then EmptyString else String c EmptyString
      | t => String c t
      end
  | EmptyString => EmptyString
  end.

Definition ascii_strip (s : string) : string := rstrip (lstrip s).

(** A world in which the provider answers with [df] and the news site
    with [page]; [max] and [min] reduce from left to right. *)
Definition sample_world (df : outcome DataFrame) (resp : outcome Response)
    (page : outcome Bs4.node) : externals :=
  mk_externals (fun _ _ _ => df) (fun _ _ => resp) (fun _ => page)
               ascii_strip (fun _ => None) nanmax nanmin.

Definition ok_response : Response := mk_response 200 "OK" default_url "<html>".

(** A flat frame with the columns yfinance delivers. *)
Definition ohlcv_frame (rs : list Row) : DataFrame :=
  mk_frame (FlatIndex ["Close"; "High"; "Low"; "Open"; "Volume"]) rs.

Definition day (d : Z) (close high low open volume : float) : Row :=
  mk_row d [Float close; Float high; Float low; Float open; Float volume].

(** Three trading days with closes 100, 105, 95. *)
Definition abc_frame : DataFrame :=
  ohlcv_frame [day 1 100 110 98 99 1000;
               day 2 105 120 101 100 1500;
               day 3 95 106 90 104 2000]%float.

Definition story_block (title href : string) : Bs4.node :=
  Bs4.Tag "div" ["eachStory"] []
    [Bs4.Tag "h3" [] [] [Bs4.Tag "a" [] [("href", href)] [Bs4.NavigableString title]]].

Definition page_of (blocks : list Bs4.node) : Bs4.node :=
  Bs4.Tag "[document]" [] [] [Bs4.Tag "html" [] [] [Bs4.Tag "body" [] [] blocks]].

Definition fifteen_stories : Bs4.node :=
  page_of (map (fun k => story_block ("Story " ++ str_of_int (Z.of_nat k))
                                     ("/markets/" ++ str_of_int (Z.of_nat k)))
               (seq 1 15)).

(** The world of the examples: the provider answers with [abc_frame], the
    news site with [fifteen_stories]. *)
Definition demo_world : externals :=
  sample_world (Returned abc_frame) (Returned ok_response) (Returned fifteen_stories).

(** ** Notions used in the statements *)

(** *** The scraper *)

Definition request_headers : list (string * string) := [("User-Agent", user_agent)].

(** The elements the search of line 41 matches. *)
Definition is_story (d : Bs4.node) : bool :=
  Bs4.is_tag_named "div" d && Bs4.has_class "eachStory" d.

(** All of them, in page order. *)
Definition story_blocks (soup : Bs4.node) : list Bs4.node :=
  filter is_story (Bs4.descendants soup).

(** A story block with its heading and its link. *)
Definition complete_story (story : Bs4.node) : Prop :=
  exists h a href,
    Bs4.find story "h3" = Some h /\ Bs4.find story "a" = Some a
    /\ Bs4.attr_get (Bs4.attrs_of a) "href" = Some href.

(** A story block that lacks its heading or its link. *)
Definition incomplete_story (story : Bs4.node) : Prop :=
  Bs4.find story "h3" = None
  \/ Bs4.find story "a" = None
  \/ exists a, Bs4.find story "a" = Some a /\ Bs4.attr_get (Bs4.attrs_of a) "href" = None.

Definition items_of (X : externals) (story : Bs4.node) : list news_item :=
  match story_item X story with
  | Some item => [item]
  | None => []
  end.

(** The ways fetching and parsing the page can fail. *)
Inductive scrape_failure (X : externals) (url : string) : exception -> Prop :=
  | get_fails e :
      requests_get X url request_headers = Raised e ->
      scrape_failure X url e
  | status_fails response e :
      requests_get X url request_headers = Returned response ->
      raise_for_status response = Raised e ->
      scrape_failure X url e
  | parse_fails response e :
      requests_get X url request_headers = Returned response ->
      raise_for_status response = Returned tt ->
      html_parser X (content response) = Raised e ->
      scrape_failure X url e.

Definition is_http_get (ev : event) : bool :=
  match ev with
  | http_get _ _ => true
  | _ => false
  end.

Definition requests_sent (log : list event) : nat := length (filter is_http_get log).








(** *** The frame *)

Definition float_of_cell (c : cell) : float :=
  match c with
  | Float x => x
  | _ => nan
  end.

(** The number a row holds in the column called [col]. *)
Definition field (d : DataFrame) (col : string) (r : Row) : float :=
  match locate (column_names d) col with
  | Returned i => float_of_cell (cell_at i r)
  | Raised _ => nan
  end.

(** The row holds no value in the column called [col]. *)
Definition missing (d : DataFrame) (col : string) (r : Row) : bool :=
  match locate (column_names d) col with
  | Returned i => isna (cell_at i r)
  | Raised _ => true
  end.

(** Open, high, low and close are all null. *)
Definition ohlc_all_null (d : DataFrame) (r : Row) : bool :=
  forallb (fun col => missing d col r) ohlc.

(** The column at position [j] carries one of the labels [cols]. *)
Definition position_among (cols names : list string) (j : nat) : bool :=
  match nth_error names j with
  | Some name => existsb (String.eqb name) cols
  | None => false
  end.

(** [r'] is [r] with its cells in the columns [cols] coerced to numbers,
    and nothing else changed. *)
Definition coerced_row (X : externals) (cols names : list string) (r r' : Row) : Prop :=
  label r' = label r
  /\ forall j, cell_at j r' =
               if position_among cols names j
               then to_numeric (float_of_str X) (cell_at j r)
               else cell_at j r.

Definition sf_nan (a : spec_float) : bool :=
  match a with
  | S754_nan => true
  | _ => false
  end.

(** [m] is the greatest of the values of [xs] that are not NaN, and NaN
    when there is none. *)
Definition is_maximum (m : float) (xs : list float) : Prop :=
  (Forall (fun x => PrimFloat.is_nan x = true) xs /\ PrimFloat.is_nan m = true)
  \/ (In m xs /\ PrimFloat.is_nan m = false
      /\ forall x, In x xs -> PrimFloat.is_nan x = false -> (x <=? m)%float = true).

Definition is_minimum (m : float) (xs : list float) : Prop :=
  (Forall (fun x => PrimFloat.is_nan x = true) xs /\ PrimFloat.is_nan m = true)
  \/ (In m xs /\ PrimFloat.is_nan m = false
      /\ forall x, In x xs -> PrimFloat.is_nan x = false -> (m <=? x)%float = true).

(** What the script relies on from [Series.max] and [Series.min]: each
    returns an extremum of the values that are not NaN, and NaN when there
    is none. *)
Definition returns_extrema (X : externals) : Prop :=
  forall xs, is_maximum (series_max X xs) xs /\ is_minimum (series_min X xs) xs.


(** Rows by strictly increasing date, the order of the provider. *)
Definition increasing (l : list Row) : Prop :=
  StronglySorted (fun a b => (label a < label b)%Z) l.

Definition is_dataframe (ev : event) : bool :=
  match ev with
  | st_dataframe _ => true
  | _ => false
  end.

Definition is_rendering (ev : event) : bool :=
  match ev with
  | st_metric _ _ _ _ | st_plotly_chart _ _ | st_dataframe _
  | st_download_button _ _ _ => true
  | _ => false
  end.

(** The columns on which the cleaning goes through: each of open, high,
    low and close is the label of exactly one column, and volume of at most
    one. *)
Definition single_column (names : list string) (col : string) : Prop :=
  exists i, get_indexer_for names col = [i].

Definition cleanable (df : DataFrame) : Prop :=
  Forall (single_column (column_names df)) ohlc
  /\ (contains (column_names df) "Volume" = true ->
      single_column (column_names df) "Volume").

(** A frame whose second row has no price at all. *)
Definition gap_frame : DataFrame :=
  mk_frame (MultiIndex [("Close", ["ABC"]); ("High", ["ABC"]); ("Low", ["ABC"]);
                        ("Open", ["ABC"]); ("Volume", ["ABC"])])
           [day 1 100 110 98 99 1000;
            mk_row 2 [NaN; Str "n/a"; PyNone; NaN; Float 0];
            mk_row 3 [NaN; Float 106; NaN; NaN; Float 2000]]%float.

(** A frame all of whose rows have no price. *)
Definition void_frame : DataFrame :=
  ohlcv_frame [mk_row 1 [NaN; NaN; NaN; NaN; Float 0]]%float.

(** *** The runs of the script *)

Definition is_metric (ev : event) : bool :=
  match ev with
  | st_metric _ _ _ _ => true
  | _ => false
  end.

Definition is_error (ev : event) : bool :=
  match ev with
  | st_error _ => true
  | _ => false
  end.

Definition is_provider_call (ev : event) : bool :=
  match ev with
  | yf_download_call _ _ _ => true
  | _ => false
  end.

Definition provider_calls (log : list event) : nat :=
  length (filter is_provider_call log).



(** What the news panel shows for one item (lines 81-82). *)
Definition item_lines (item : news_item) : list event :=
  [st_markdown ("**[" ++ headline item ++ "](" ++ link item ++ ")**");
   st_markdown "---"].

(** Every cell of the frame is a float64. *)
Definition all_float (df : DataFrame) : Prop :=
  Forall (fun r => Forall (fun c => exists x, c = Float x) (cells r)) (rows df).

(** Three days of prices without a Volume column. *)
Definition ohlc_only_frame : DataFrame :=
  mk_frame (FlatIndex ["Close"; "High"; "Low"; "Open"])
           [mk_row 1 [Float 100; Float 110; Float 98; Float 99];
            mk_row 2 [Float 105; Float 120; Float 101; Float 100]]%float.

(** A frame with an object column next to the prices, as the cleaning
    leaves it. *)
Definition annotated_frame : DataFrame :=
  mk_frame (FlatIndex ["Close"; "High"; "Low"; "Open"; "Volume"; "Note"])
           [mk_row 1 [Float 100; Float 110; Float 98; Float 99; Float 10; Str "split"];
            mk_row 2 [Float 105; NaN; Float 101; Float 100; Float 20; PyNone]]%float.

(** A page without any story block. *)
Definition storyless_page : Bs4.node :=
  page_of [Bs4.Tag "div" ["topStories"] [] [Bs4.NavigableString "Markets"]].

(** ** Tactics *)

(** Case analysis on every comparison of exponents and mantissas in the
    goal, for the order of floats. *)
Ltac cmp_cases :=
  repeat (match goal with
          | |- context [(?a ?= ?b)%Z] => destruct (Z.compare_spec a b)
          | |- context [PosDef.Pos.compare_cont Eq ?a ?b] =>
              change (PosDef.Pos.compare_cont Eq a b) with (Pos.compare a b);
              destruct (Pos.compare_spec a b)
          end; cbn [CompOpp]).

(** ** Proofs *)

(** *** The script monad *)

Lemma bind_emit {B : Type} (ev : event) (k : unit -> script B) :
  bind (emit ev) k = (ev :: fst (k tt), snd (k tt)).
Proof. unfold bind, emit. destruct (k tt); reflexivity. Qed.

Lemma bind_lift_returned {A B : Type} (a : A) (k : A -> script B) :
  bind (lift (Returned a)) k = k a.
Proof. unfold bind, lift. destruct (k a); reflexivity. Qed.

Lemma bind_lift_raised {A B : Type} (e : exception) (k : A -> script B) :
  bind (lift (@Raised A e)) k = ([], Raised e).
Proof. reflexivity. Qed.

Lemma bind_ret {A B : Type} (a : A) (k : A -> script B) :
  bind (ret a) k = k a.
Proof. unfold bind, ret. destruct (k a); reflexivity. Qed.

(** *** The fetch *)

Lemma empty_no_rows (df : DataFrame) : rows df = [] -> empty df = true.
Proof.
  unfold empty. intros ->. destruct (column_names df); reflexivity.
Qed.

Lemma nonempty_has_rows (df : DataFrame) : empty df = false -> rows df <> [].
Proof.
  intros H Hr. rewrite (empty_no_rows df Hr) in H. discriminate.
Qed.

Lemma get_stock_data_returned (X : externals) (ticker : string) (s e : Z) (df : DataFrame) :
  yf_download X ticker s e = Returned df ->
  get_stock_data X ticker s e =
    if empty df
    then ([yf_download_call ticker s e;
           st_warning ("No data found for " ++ ticker
                       ++ ". It might be delisted or an incorrect ticker.")],
          Returned None)
    else ([yf_download_call ticker s e], Returned (Some df)).
Proof.
  intros H. unfold get_stock_data. rewrite bind_emit, H, bind_lift_returned.
  destruct (empty df); reflexivity.
Qed.

Lemma get_stock_data_raised (X : externals) (ticker : string) (s e : Z) (exn : exception) :
  yf_download X ticker s e = Raised exn ->
  get_stock_data X ticker s e =
    if isinstance_Exception exn
    then ([yf_download_call ticker s e;
           st_error ("Error fetching data for " ++ ticker ++ ": " ++ exc_str exn)],
          Returned None)
    else ([yf_download_call ticker s e], Raised exn).
Proof.
  intros H. unfold get_stock_data. rewrite bind_emit, H, bind_lift_raised.
  cbn. destruct (isinstance_Exception exn); reflexivity.
Qed.

(** C2.  A failure of the provider (any exception of class [Exception]) is
    caught inside [get_stock_data]: it is shown with [st.error] and the call
    returns [None].  A provider result without rows is shown with
    [st.warning] and the call returns [None] as well.  The caller does the
    same with [None] and with an empty frame. *)
Theorem fetch_failure_and_no_data (X : externals) (ticker : string) (s e : Z) :
  (forall exn,
      yf_download X ticker s e = Raised exn ->
      isinstance_Exception exn = true ->
      get_stock_data X ticker s e =
        ([yf_download_call ticker s e;
          st_error ("Error fetching data for " ++ ticker ++ ": " ++ exc_str exn)],
         Returned None))
  /\ (forall df,
         yf_download X ticker s e = Returned df ->
         rows df = [] ->
         get_stock_data X ticker s e =
           ([yf_download_call ticker s e;
             st_warning ("No data found for " ++ ticker
                         ++ ". It might be delisted or an incorrect ticker.")],
            Returned None))
  /\ (forall df,
         empty df = true ->
         present X ticker (Some df) = present X ticker None).
Proof.
  split; [| split].
  - intros exn Hd Hc. rewrite (get_stock_data_raised _ _ _ _ _ Hd), Hc. reflexivity.
  - intros df Hd Hr.
    rewrite (get_stock_data_returned _ _ _ _ _ Hd), (empty_no_rows df Hr). reflexivity.
  - intros df He. unfold present. rewrite He. reflexivity.
Qed.

Lemma fetch_failure_and_no_data_witness :
  get_stock_data
    (sample_world (Raised (mk_exception RequestException "timed out"))
                  (Returned ok_response) (Returned fifteen_stories))
    "ABC" 1 30
  = ([yf_download_call "ABC" 1 30;
      st_error "Error fetching data for ABC: timed out"],
     Returned None)
  /\ get_stock_data
       (sample_world (Returned (ohlcv_frame []))
                     (Returned ok_response) (Returned fifteen_stories))
       "ABC" 1 30
     = ([yf_download_call "ABC" 1 30;
         st_warning "No data found for ABC. It might be delisted or an incorrect ticker."],
        Returned None)
  /\ present (sample_world (Returned (ohlcv_frame []))
                           (Returned ok_response) (Returned fifteen_stories))
             "ABC" (Some (ohlcv_frame []))
     = present (sample_world (Returned (ohlcv_frame []))
                             (Returned ok_response) (Returned fifteen_stories))
               "ABC" None.
Proof.
  split; [| split].
  - exact (proj1 (fetch_failure_and_no_data
                    (sample_world (Raised (mk_exception RequestException "timed out"))
                                  (Returned ok_response) (Returned fifteen_stories))
                    "ABC" 1 30)
                 (mk_exception RequestException "timed out") eq_refl eq_refl).
  - exact (proj1 (proj2 (fetch_failure_and_no_data
                           (sample_world (Returned (ohlcv_frame []))
                                         (Returned ok_response) (Returned fifteen_stories))
                           "ABC" 1 30))
                 (ohlcv_frame []) eq_refl eq_refl).
  - exact (proj2 (proj2 (fetch_failure_and_no_data
                           (sample_world (Returned (ohlcv_frame []))
                                         (Returned ok_response) (Returned fifteen_stories))
                           "ABC" 1 30))
                 (ohlcv_frame []) eq_refl).
Defined.

(** C10.  [get_stock_data] never returns a frame without rows.  A call ends
    in one of three ways: it returns the provider's frame, which then has a
    row; it returns [None], after the provider failed or delivered an empty
    frame; or an exception outside [Exception] passes through. *)
Theorem fetch_never_returns_empty (X : externals) (ticker : string) (s e : Z) :
  (exists df,
      snd (get_stock_data X ticker s e) = Returned (Some df)
      /\ yf_download X ticker s e = Returned df
      /\ empty df = false /\ rows df <> [])
  \/ (snd (get_stock_data X ticker s e) = Returned None
      /\ ((exists exn, yf_download X ticker s e = Raised exn
                       /\ isinstance_Exception exn = true)
          \/ (exists df, yf_download X ticker s e = Returned df /\ empty df = true)))
  \/ (exists exn,
         snd (get_stock_data X ticker s e) = Raised exn
         /\ yf_download X ticker s e = Raised exn
         /\ isinstance_Exception exn = false).
Proof.
  destruct (yf_download X ticker s e) as [df | exn] eqn:Hd.
  - rewrite (get_stock_data_returned _ _ _ _ _ Hd).
    destruct (empty df) eqn:He.
    + right; left. split; [reflexivity |]. right. exists df. auto.
    + left. exists df. repeat split; auto using nonempty_has_rows.
  - rewrite (get_stock_data_raised _ _ _ _ _ Hd).
    destruct (isinstance_Exception exn) eqn:Hc.
    + right; left. split; [reflexivity |]. left. exists exn. auto.
    + right; right. exists exn. auto.
Qed.

(** *** The scraper *)

Lemma collect_news_acc (X : externals) (stories : list Bs4.node) (acc : list news_item) :
  fold_left (fun news_list story =>
               match story_item X story with
               | Some item => news_list ++ [item]
               | None => news_list
               end)
            stories acc
  = acc ++ flat_map (items_of X) stories.
Proof.
  revert acc. induction stories as [| story stories IH]; intros acc; cbn.
  - now rewrite app_nil_r.
  - rewrite IH. unfold items_of. destruct (story_item X story); cbn.
    + now rewrite <- app_assoc.
    + reflexivity.
Qed.

Lemma collect_news_flat_map (X : externals) (stories : list Bs4.node) :
  collect_news X stories = flat_map (items_of X) stories.
Proof. unfold collect_news. now rewrite collect_news_acc. Qed.

Lemma find_all_stories (soup : Bs4.node) :
  Bs4.find_all soup "div" "eachStory" 10 = firstn 10 (story_blocks soup).
Proof. reflexivity. Qed.

Lemma items_of_length (X : externals) (stories : list Bs4.node) :
  length (flat_map (items_of X) stories) <= length stories.
Proof.
  induction stories as [| s stories IH]; cbn; [lia |].
  rewrite length_app. unfold items_of at 1. destruct (story_item X s); cbn; lia.
Qed.

Lemma items_of_complete (X : externals) (stories : list Bs4.node) :
  Forall complete_story stories ->
  length (flat_map (items_of X) stories) = length stories.
Proof.
  induction 1 as [| s stories Hs _ IH]; cbn; [reflexivity |].
  rewrite length_app, IH. destruct Hs as (h & a & href & Hh & Ha & Hr).
  unfold items_of, story_item. rewrite Hh, Ha, Hr. reflexivity.
Qed.

Lemma story_item_incomplete (X : externals) (story : Bs4.node) :
  incomplete_story story -> story_item X story = None.
Proof.
  unfold story_item. intros [H | [H | (a & Ha & Hr)]].
  - now rewrite H.
  - rewrite H. now destruct (Bs4.find story "h3").
  - rewrite Ha, Hr. now destruct (Bs4.find story "h3").
Qed.

Lemma scrape_market_news_success (X : externals) (url : string)
    (response : Response) (soup : Bs4.node) :
  requests_get X url request_headers = Returned response ->
  raise_for_status response = Returned tt ->
  html_parser X (content response) = Returned soup ->
  scrape_market_news X url =
    ([http_get url request_headers],
     Returned (flat_map (items_of X) (firstn 10 (story_blocks soup)))).
Proof.
  intros Hg Hs Hp. unfold scrape_market_news. fold request_headers.
  rewrite bind_emit, Hg, bind_lift_returned, Hs, bind_lift_returned, Hp,
    bind_lift_returned, find_all_stories, collect_news_flat_map.
  reflexivity.
Qed.

Lemma scrape_market_news_failure (X : externals) (url : string) (e : exception) :
  scrape_failure X url e ->
  scrape_market_news X url =
    if isinstance_RequestException e then
      ([http_get url request_headers;
        st_error ("Failed to retrieve news. Error: " ++ exc_str e)], Returned [])
    else if isinstance_Exception e then
      ([http_get url request_headers;
        st_error ("An error occurred during news scraping: " ++ exc_str e)], Returned [])
    else ([http_get url request_headers], Raised e).
Proof.
  intros H. unfold scrape_market_news. fold request_headers.
  assert (Hm : (emit (http_get url request_headers) ;;;
                response <- lift (requests_get X url request_headers) ;;
                lift (raise_for_status response) ;;;
                soup <- lift (html_parser X (content response)) ;;
                ret (collect_news X (Bs4.find_all soup "div" "eachStory" 10)))
               = ([http_get url request_headers], Raised e)).
  { rewrite bind_emit. destruct H as [e Hg | r e Hg Hs | r e Hg Hs Hp].
    - rewrite Hg. reflexivity.
    - rewrite Hg, bind_lift_returned, Hs. reflexivity.
    - rewrite Hg, bind_lift_returned, Hs, bind_lift_returned, Hp. reflexivity. }
  rewrite Hm. cbn.
  destruct (isinstance_RequestException e); [reflexivity |].
  destruct (isinstance_Exception e); reflexivity.
Qed.

Lemma scrape_cases (X : externals) (url : string) :
  (exists response soup,
      requests_get X url request_headers = Returned response
      /\ raise_for_status response = Returned tt
      /\ html_parser X (content response) = Returned soup)
  \/ (exists e, scrape_failure X url e).
Proof.
  destruct (requests_get X url request_headers) as [r | e] eqn:Hg.
  - destruct (raise_for_status r) as [[] | e] eqn:Hs.
    + destruct (html_parser X (content r)) as [soup | e] eqn:Hp.
      * left. exists r, soup. auto.
      * right. exists e. eapply parse_fails; eauto.
    + right. exists e. eapply status_fails; eauto.
  - right. exists e. now apply get_fails.
Qed.

Lemma scrape_returns (X : externals) (url : string) (log : list event)
    (news : list news_item) :
  scrape_market_news X url = (log, Returned news) ->
  news = []
  \/ exists response soup,
       requests_get X url request_headers = Returned response
       /\ raise_for_status response = Returned tt
       /\ html_parser X (content response) = Returned soup
       /\ news = flat_map (items_of X) (firstn 10 (story_blocks soup)).
Proof.
  intros H. destruct (scrape_cases X url) as [(r & soup & Hg & Hs & Hp) | (e & He)].
  - right. exists r, soup. repeat split; auto.
    rewrite (scrape_market_news_success _ _ _ _ Hg Hs Hp) in H. congruence.
  - left. rewrite (scrape_market_news_failure _ _ _ He) in H.
    destruct (isinstance_RequestException e); [congruence |].
    destruct (isinstance_Exception e); congruence.
Qed.

(** C3.  The scraper returns at most 10 items.  On a page that was fetched
    and parsed, the items are those of the first 10 elements matching
    [div.eachStory], in page order; a matching element without its heading
    or its link contributes nothing; and if the page has 10 or more such
    elements (15, say), all with heading and link, exactly 10 items come
    back. *)
Theorem scraper_takes_first_ten_stories (X : externals) (url : string) :
  (forall log news,
      scrape_market_news X url = (log, Returned news) -> length news <= 10)
  /\ (forall response soup,
         requests_get X url request_headers = Returned response ->
         raise_for_status response = Returned tt ->
         html_parser X (content response) = Returned soup ->
         scrape_market_news X url =
           ([http_get url request_headers],
            Returned (flat_map (items_of X) (firstn 10 (story_blocks soup))))
         /\ (forall story, incomplete_story story -> items_of X story = [])
         /\ (forall story, complete_story story -> length (items_of X story) = 1)
         /\ (10 <= length (story_blocks soup) ->
             Forall complete_story (story_blocks soup) ->
             length (flat_map (items_of X) (firstn 10 (story_blocks soup))) = 10)).
Proof.
  split.
  - intros log news H.
    destruct (scrape_returns _ _ _ _ H) as [-> | (r & soup & _ & _ & _ & ->)].
    + cbn. lia.
    + etransitivity; [apply items_of_length |].
      rewrite length_firstn. lia.
  - intros r soup Hg Hs Hp. split; [| split; [| split]].
    + now apply scrape_market_news_success with (response := r).
    + intros story Hi. unfold items_of. now rewrite story_item_incomplete.
    + intros story (h & a & href & Hh & Ha & Hr).
      unfold items_of, story_item. now rewrite Hh, Ha, Hr.
    + intros Hn Hall. rewrite items_of_complete.
      * rewrite length_firstn. lia.
      * rewrite <- (firstn_skipn 10 (story_blocks soup)) in Hall.
        now apply Forall_app in Hall.
Qed.

Lemma scraper_takes_first_ten_stories_witness :
  length (story_blocks fifteen_stories) = 15
  /\ scrape_market_news
       (sample_world (Returned abc_frame) (Returned ok_response) (Returned fifteen_stories))
       default_url
     = ([http_get default_url request_headers],
        Returned (flat_map
                    (items_of (sample_world (Returned abc_frame) (Returned ok_response)
                                            (Returned fifteen_stories)))
                    (firstn 10 (story_blocks fifteen_stories))))
  /\ length (flat_map
               (items_of (sample_world (Returned abc_frame) (Returned ok_response)
                                       (Returned fifteen_stories)))
               (firstn 10 (story_blocks fifteen_stories))) = 10.
Proof.
  pose proof (proj2 (scraper_takes_first_ten_stories
                       (sample_world (Returned abc_frame) (Returned ok_response)
                                     (Returned fifteen_stories))
                       default_url)
                    ok_response fifteen_stories eq_refl eq_refl eq_refl)
    as (Hrun & _ & _ & Hten).
  split; [reflexivity |]. split; [exact Hrun |].
  apply Hten.
  - vm_compute. lia.
  - vm_compute.
    repeat (constructor; [do 3 eexists; repeat split; reflexivity |]).
    constructor.
Defined.

(** A block without a link is passed over; the blocks around it are kept, in
    page order. *)
Example scraper_skips_block_without_link :
  scrape_market_news
    (sample_world (Returned abc_frame) (Returned ok_response)
       (Returned (page_of [story_block "  Sensex up " "/a";
                           Bs4.Tag "div" ["eachStory"; "wide"] []
                             [Bs4.Tag "h3" [] [] [Bs4.NavigableString "No link"]];
                           Bs4.Tag "div" ["other"] [] [];
                           story_block "Nifty flat" "/b"])))
    default_url
  = ([http_get default_url request_headers],
     Returned [mk_news "Sensex up" "https://economictimes.indiatimes.com/a";
               mk_news "Nifty flat" "https://economictimes.indiatimes.com/b"]).
Proof. reflexivity. Qed.

(** C5.  Whatever goes wrong while the page is fetched or parsed (the
    request raises, the status is an error status, the parser raises), the
    exception is caught, an error is shown and the scraper returns the empty
    list.  In every run exactly one request is sent, and no exception of
    class [Exception] leaves the scraper. *)
Theorem scraper_fails_closed (X : externals) (url : string) :
  (forall e,
      scrape_failure X url e ->
      isinstance_Exception e = true ->
      exists msg,
        scrape_market_news X url =
          ([http_get url request_headers; st_error msg], Returned []))
  /\ requests_sent (fst (scrape_market_news X url)) = 1
  /\ (forall e,
         snd (scrape_market_news X url) = Raised e ->
         isinstance_Exception e = false).
Proof.
  split; [| split].
  - intros e Hf He. rewrite (scrape_market_news_failure _ _ _ Hf), He.
    destruct (isinstance_RequestException e); eexists; reflexivity.
  - destruct (scrape_cases X url) as [(r & soup & Hg & Hs & Hp) | (e & Hf)].
    + now rewrite (scrape_market_news_success _ _ _ _ Hg Hs Hp).
    + rewrite (scrape_market_news_failure _ _ _ Hf).
      destruct (isinstance_RequestException e); [reflexivity |].
      destruct (isinstance_Exception e); reflexivity.
  - intros e.
    destruct (scrape_cases X url) as [(r & soup & Hg & Hs & Hp) | (e' & Hf)].
    + rewrite (scrape_market_news_success _ _ _ _ Hg Hs Hp). discriminate.
    + rewrite (scrape_market_news_failure _ _ _ Hf).
      destruct (isinstance_RequestException e'); [discriminate |].
      destruct (isinstance_Exception e') eqn:He'; [discriminate |].
      cbn. intros [= <-]. exact He'.
Qed.

Lemma scraper_fails_closed_witness :
  exists msg,
    scrape_market_news
      (sample_world (Returned abc_frame)
                    (Returned (mk_response 503 "Service Unavailable" default_url ""))
                    (Returned fifteen_stories))
      default_url
    = ([http_get default_url request_headers; st_error msg], Returned []).
Proof.
  refine (proj1 (scraper_fails_closed
                   (sample_world (Returned abc_frame)
                      (Returned (mk_response 503 "Service Unavailable" default_url ""))
                      (Returned fifteen_stories))
                   default_url)
                (mk_exception HTTPError
                   ("503 Server Error: Service Unavailable for url: " ++ default_url))
                _ eq_refl).
  eapply status_fails; reflexivity.
Defined.

Lemma in_firstn {A : Type} (n : nat) (l : list A) (x : A) :
  In x (firstn n l) -> In x l.
Proof.
  intros H. rewrite <- (firstn_skipn n l). apply in_or_app. now left.
Qed.


(** In the sidebar a failed scrape shows the error of the scraper and then
    the warning of the panel; the script goes on. *)
Lemma news_panel_on_failure (X : externals) (e : exception) :
  scrape_failure X default_url e ->
  isinstance_Exception e = true ->
  exists msg,
    news_panel X =
      ([http_get default_url request_headers; st_error msg;
        st_warning "Could not fetch market news at the moment."],
       Returned tt).
Proof.
  intros Hf He. unfold news_panel.
  rewrite (scrape_market_news_failure _ _ _ Hf), He.
  destruct (isinstance_RequestException e); eexists; reflexivity.
Qed.





(** *** Columns and their positions *)

Lemma get_indexer_for_In (names : list string) (col : string) (i : nat) :
  In i (get_indexer_for names col) <-> nth_error names i = Some col.
Proof.
  unfold get_indexer_for. rewrite filter_In, in_seq, String.eqb_eq. split.
  - intros [[_ Hlt] Hn]. cbn in Hlt. rewrite <- Hn. now apply nth_error_nth'.
  - intros H. split.
    + split; [lia |]. cbn. apply nth_error_Some. congruence.
    + now apply nth_error_nth.
Qed.

Lemma locate_returned (names : list string) (col : string) (i : nat) :
  locate names col = Returned i <-> get_indexer_for names col = [i].
Proof.
  unfold locate. destruct (get_indexer_for names col) as [| a [| b l]]; split;
    intros H; try discriminate; congruence.
Qed.

Lemma locate_nth_error (names : list string) (col : string) (i : nat) :
  locate names col = Returned i -> nth_error names i = Some col.
Proof.
  intros H. apply locate_returned in H. apply get_indexer_for_In.
  rewrite H. now left.
Qed.

Lemma locate_unique (names : list string) (col : string) (i j : nat) :
  locate names col = Returned i -> nth_error names j = Some col -> j = i.
Proof.
  intros H Hj. apply locate_returned in H. apply get_indexer_for_In in Hj.
  rewrite H in Hj. destruct Hj as [-> | []]. reflexivity.
Qed.

Lemma contains_nth_error (names : list string) (col : string) (j : nat) :
  nth_error names j = Some col -> contains names col = true.
Proof.
  intros H. unfold contains. apply existsb_exists. exists col. split.
  - eapply nth_error_In; eauto.
  - apply String.eqb_refl.
Qed.

Lemma contains_false_indexer (names : list string) (col : string) :
  contains names col = false -> get_indexer_for names col = [].
Proof.
  intros H. destruct (get_indexer_for names col) as [| i l] eqn:E; [reflexivity |].
  assert (Hi : In i (get_indexer_for names col)) by (rewrite E; now left).
  apply get_indexer_for_In, contains_nth_error in Hi. congruence.
Qed.

Lemma position_among_located (names : list string) (col : string) (i j : nat) :
  locate names col = Returned i ->
  position_among [col] names j = (j =? i)%nat.
Proof.
  intros H. unfold position_among.
  destruct (nth_error names j) as [name |] eqn:Hj; cbn.
  - rewrite orb_false_r. destruct (String.eqb_spec name col) as [-> | Hne].
    + rewrite (locate_unique _ _ _ _ H Hj). symmetry. apply Nat.eqb_refl.
    + symmetry. apply Nat.eqb_neq. intros ->.
      rewrite (locate_nth_error _ _ _ H) in Hj. congruence.
  - symmetry. apply Nat.eqb_neq. intros ->.
    rewrite (locate_nth_error _ _ _ H) in Hj. discriminate.
Qed.

Lemma position_among_absent (names : list string) (col : string) (j : nat) :
  contains names col = false -> position_among [col] names j = false.
Proof.
  intros H. unfold position_among.
  destruct (nth_error names j) as [name |] eqn:Hj; [| reflexivity]. cbn.
  rewrite orb_false_r. apply String.eqb_neq. intros ->.
  apply contains_nth_error in Hj. congruence.
Qed.

Lemma position_among_cons (col : string) (cols names : list string) (j : nat) :
  position_among (col :: cols) names j
  = position_among [col] names j || position_among cols names j.
Proof.
  unfold position_among. destruct (nth_error names j); cbn; [| reflexivity].
  now rewrite orb_false_r.
Qed.

Lemma position_among_In (cols names : list string) (col : string) (j : nat) :
  nth_error names j = Some col -> In col cols -> position_among cols names j = true.
Proof.
  intros Hj Hin. unfold position_among. rewrite Hj. apply existsb_exists.
  exists col. split; [assumption | apply String.eqb_refl].
Qed.

(** *** Coercion *)

Section Coercion.

Variable X : externals.

Lemma to_numeric_float (c : cell) :
  to_numeric (float_of_str X) c
  = Float (float_of_cell (to_numeric (float_of_str X) c)).
Proof.
  destruct c as [x | s |]; cbn; try reflexivity.
  destruct (float_of_str X s); reflexivity.
Qed.

Lemma to_numeric_idempotent (c : cell) :
  to_numeric (float_of_str X) (to_numeric (float_of_str X) c)
  = to_numeric (float_of_str X) c.
Proof. rewrite (to_numeric_float c). reflexivity. Qed.

Lemma nth_map_nth {A : Type} (f : A -> A) (d : A) (i j : nat) (l : list A) :
  f d = d ->
  nth j (map_nth f i l) d = if (j =? i)%nat then f (nth j l d) else nth j l d.
Proof.
  intros Hd. revert i j. induction l as [| x l IH]; intros i j.
  - destruct (j =? i)%nat; destruct j; cbn; congruence.
  - destruct i as [| i]; destruct j as [| j]; cbn; try reflexivity. apply IH.
Qed.

Lemma coerced_row_refl (names : list string) (r : Row) :
  coerced_row X [] names r r.
Proof.
  split; [reflexivity |]. intros j. unfold position_among.
  now destruct (nth_error names j).
Qed.

Lemma coerced_row_step (col : string) (cols names : list string) (r r1 r' : Row) :
  coerced_row X [col] names r r1 ->
  coerced_row X cols names r1 r' ->
  coerced_row X (col :: cols) names r r'.
Proof.
  intros [Hl1 Hc1] [Hl2 Hc2]. split; [congruence |]. intros j.
  rewrite Hc2, Hc1, (position_among_cons col cols names j).
  destruct (position_among [col] names j), (position_among cols names j); cbn;
    try reflexivity.
  apply to_numeric_idempotent.
Qed.

Lemma Forall2_compose {A : Type} (R1 R2 R3 : A -> A -> Prop) (l1 l2 l3 : list A) :
  (forall a b c, R1 a b -> R2 b c -> R3 a c) ->
  Forall2 R1 l1 l2 -> Forall2 R2 l2 l3 -> Forall2 R3 l1 l3.
Proof.
  intros Hc H12. revert l3. induction H12 as [| a b l1 l2 Hab _ IH]; intros l3 H23;
    inversion H23; subst; constructor; eauto.
Qed.

Lemma Forall2_map_r {A : Type} (R : A -> A -> Prop) (g : A -> A) (l : list A) :
  (forall a, R a (g a)) -> Forall2 R l (map g l).
Proof. intros H. induction l; cbn; constructor; auto. Qed.

Lemma Forall2_In_r {A : Type} (R : A -> A -> Prop) (l1 l2 : list A) (b : A) :
  Forall2 R l1 l2 -> In b l2 -> exists a, In a l1 /\ R a b.
Proof.
  induction 1 as [| a b' l1 l2 Hab _ IH]; cbn; [intros [] |].
  intros [<- | Hin].
  - exists a. auto.
  - destruct (IH Hin) as (a' & Ha' & HR). exists a'. auto.
Qed.

Lemma coerce_column_spec (df df' : DataFrame) (col : string) :
  coerce_column (float_of_str X) df col = Returned df' ->
  columns df' = columns df
  /\ Forall2 (coerced_row X [col] (column_names df)) (rows df) (rows df')
  /\ (contains (column_names df) col = false
      \/ exists i, locate (column_names df) col = Returned i).
Proof.
  unfold coerce_column. destruct (contains (column_names df) col) eqn:Hc.
  - destruct (locate (column_names df) col) as [i | e] eqn:Hl; cbn; [| discriminate].
    intros [= <-]. split; [reflexivity |]. split; [| right; eauto].
    cbn. apply Forall2_map_r. intros r. split; [reflexivity |]. intros j.
    rewrite (position_among_located _ _ _ j Hl). unfold cell_at. cbn.
    apply nth_map_nth. reflexivity.
  - intros [= <-]. split; [reflexivity |]. split; [| now left].
    induction (rows df) as [| r l IH]; constructor; auto.
    split; [reflexivity |]. intros j. now rewrite position_among_absent.
Qed.

Lemma coerce_columns_spec (cols : list string) (df df' : DataFrame) :
  coerce_columns (float_of_str X) cols df = Returned df' ->
  columns df' = columns df
  /\ Forall2 (coerced_row X cols (column_names df)) (rows df) (rows df')
  /\ Forall (fun col => contains (column_names df) col = false
                        \/ exists i, locate (column_names df) col = Returned i) cols.
Proof.
  revert df. induction cols as [| col cols IH]; intros df; cbn.
  - intros [= <-]. split; [reflexivity |]. split; [| constructor].
    induction (rows df); constructor; auto using coerced_row_refl.
  - destruct (coerce_column (float_of_str X) df col) as [d1 |] eqn:H1; cbn;
      [| discriminate].
    intros H2. apply coerce_column_spec in H1. destruct H1 as (Hc1 & Hr1 & Hk1).
    apply IH in H2. destruct H2 as (Hc2 & Hr2 & Hk2).
    unfold column_names in *. rewrite Hc1 in *.
    split; [congruence |]. split; [| constructor; assumption].
    eapply Forall2_compose; [| exact Hr1 | exact Hr2].
    intros a b c. apply coerced_row_step.
Qed.

End Coercion.

(** *** Dropping the rows without prices *)

Lemma column_names_flatten (df : DataFrame) :
  column_names (flatten_columns df) = column_names df.
Proof.
  unfold flatten_columns, column_names.
  destruct (columns df) eqn:E; cbn; now rewrite ?E.
Qed.

Lemma rows_flatten (df : DataFrame) : rows (flatten_columns df) = rows df.
Proof. unfold flatten_columns. now destruct (columns df). Qed.

Lemma columns_flatten (df : DataFrame) :
  columns (flatten_columns df) = FlatIndex (column_names df).
Proof.
  unfold flatten_columns, column_names.
  destruct (columns df) eqn:E; cbn; now rewrite ?E.
Qed.

Lemma ohlc_numeric (col : string) : In col ohlc -> In col numeric_cols.
Proof. cbn. intuition. Qed.

Lemma numeric_cols_cases (col : string) :
  In col numeric_cols -> In col ohlc \/ col = "Volume".
Proof. cbn. intuition. Qed.

Lemma filter_nil {A : Type} (p : A -> bool) (l : list A) :
  filter p l = [] <-> Forall (fun x => p x = false) l.
Proof.
  induction l as [| x l IH]; cbn.
  - split; [constructor | reflexivity].
  - destruct (p x) eqn:E.
    + split; [discriminate | intros H; inversion H; congruence].
    + rewrite IH. split; [now constructor | intros H; now inversion H].
Qed.

Lemma all_na_located (names subset : list string) (r : Row) :
  Forall (fun col => exists i, locate names col = Returned i) subset ->
  all_na (flat_map (get_indexer_for names) subset) r
  = forallb (fun col => match locate names col with
                        | Returned i => isna (cell_at i r)
                        | Raised _ => true
                        end) subset.
Proof.
  induction 1 as [| col subset [i Hi] _ IH]; cbn; [reflexivity |].
  rewrite Hi. apply locate_returned in Hi. rewrite Hi. cbn.
  unfold all_na in IH. now rewrite IH.
Qed.

(** What [clean] returns, step by step. *)
Lemma clean_spec (X : externals) (df d : DataFrame) :
  clean X df = Returned d ->
  exists coerced,
    columns d = FlatIndex (column_names df)
    /\ Forall2 (coerced_row X numeric_cols (column_names df)) (rows df) coerced
    /\ rows d = filter (fun r => negb (ohlc_all_null d r)) coerced
    /\ Forall (fun col => exists i, locate (column_names df) col = Returned i) ohlc
    /\ Forall (fun col => contains (column_names df) col = false
                          \/ exists i, locate (column_names df) col = Returned i)
              numeric_cols.
Proof.
  unfold clean.
  destruct (coerce_columns (float_of_str X) numeric_cols (flatten_columns df))
    as [c |] eqn:Hc; cbn [obind]; [| discriminate].
  apply coerce_columns_spec in Hc. destruct Hc as (Hcols & Hrows & Hloc).
  rewrite column_names_flatten, rows_flatten in *. rewrite columns_flatten in Hcols.
  assert (Hnames : column_names c = column_names df)
    by (unfold column_names at 1; now rewrite Hcols).
  unfold dropna_all. rewrite Hnames. cbv zeta.
  pose proof (all_na_located (column_names df) ohlc) as Hna.
  set (ixs := flat_map (get_indexer_for (column_names df)) ohlc) in *.
  destruct (filter (fun col => negb (contains (column_names df) col)) ohlc)
    as [| a absent] eqn:Habs; [| discriminate].
  intros Hd. injection Hd as <-. exists (rows c). cbn [rows columns].
  assert (Hsub : Forall (fun col => exists i, locate (column_names df) col = Returned i)
                        ohlc).
  { apply Forall_forall. intros col Hin.
    destruct (proj1 (Forall_forall _ _) Hloc col (ohlc_numeric col Hin)) as [Hc | Hi];
      [| assumption].
    apply filter_nil in Habs. apply (proj1 (Forall_forall _ _) Habs) in Hin.
    rewrite Hc in Hin. discriminate. }
  split; [assumption |]. split; [assumption |]. split; [| split; assumption].
  apply filter_ext. intros r. f_equal.
  rewrite (Hna r Hsub).
  unfold ohlc_all_null, missing, column_names. cbn [columns]. rewrite Hcols.
  reflexivity.
Qed.

Lemma column_names_clean (X : externals) (df d : DataFrame) :
  clean X df = Returned d -> column_names d = column_names df.
Proof.
  intros H. destruct (clean_spec _ _ _ H) as (c & Hcols & _).
  unfold column_names at 1. now rewrite Hcols.
Qed.

(** The cleaning goes through on the frames whose price columns are in
    place. *)
Lemma coerce_columns_returns (X : externals) (cols : list string) (df : DataFrame) :
  Forall (fun col => contains (column_names df) col = true ->
                     single_column (column_names df) col) cols ->
  exists c, coerce_columns (float_of_str X) cols df = Returned c.
Proof.
  revert df. induction cols as [| col cols IH]; intros df Hall; cbn; [eauto |].
  inversion Hall as [| ? ? Hcol Hrest]; subst.
  assert (H1 : exists d1, coerce_column (float_of_str X) df col = Returned d1).
  { unfold coerce_column. destruct (contains (column_names df) col); [| eauto].
    destruct (Hcol eq_refl) as [i Hi]. apply locate_returned in Hi.
    rewrite Hi. cbn. eauto. }
  destruct H1 as [d1 H1]. rewrite H1. cbn. apply IH.
  apply coerce_column_spec in H1. destruct H1 as (Hc & _).
  unfold column_names in *. now rewrite Hc.
Qed.

Lemma single_column_contains (names : list string) (col : string) :
  single_column names col -> contains names col = true.
Proof.
  intros [i Hi]. destruct (contains names col) eqn:E; [reflexivity |].
  rewrite (contains_false_indexer _ _ E) in Hi. discriminate.
Qed.

Lemma clean_returns (X : externals) (df : DataFrame) :
  cleanable df <-> exists d, clean X df = Returned d.
Proof.
  split.
  - intros [Hohlc Hvol]. unfold clean.
    destruct (coerce_columns_returns X numeric_cols (flatten_columns df)) as [c Hc].
    { rewrite column_names_flatten. apply Forall_forall. intros col Hin Hcol.
      destruct (numeric_cols_cases col Hin) as [Ho | ->]; [| auto].
      apply (proj1 (Forall_forall _ _) Hohlc), Ho. }
    rewrite Hc. cbn. unfold dropna_all.
    apply coerce_columns_spec in Hc. destruct Hc as (Hcols & _).
    assert (Hnames : column_names c = column_names df).
    { unfold column_names at 1. rewrite Hcols. apply column_names_flatten. }
    rewrite Hnames.
    assert (Habs : filter (fun col => negb (contains (column_names df) col)) ohlc = []).
    { apply filter_nil. eapply Forall_impl; [| exact Hohlc].
      intros col Hcol. cbn. now rewrite (single_column_contains _ _ Hcol). }
    rewrite Habs. eauto.
  - intros [d H]. destruct (clean_spec _ _ _ H) as (c & _ & _ & _ & Hloc & Hnum).
    split.
    + eapply Forall_impl; [| exact Hloc]. intros col [i Hi].
      exists i. now apply locate_returned.
    + intros Hv. apply Forall_forall with (x := "Volume") in Hnum.
      * destruct Hnum as [Hc | [i Hi]]; [congruence |].
        exists i. now apply locate_returned.
      * cbn. auto 6.
Qed.

(** C1.  On a frame whose price columns are in place the cleaning returns a
    frame [d], with flat column labels (the first level of the provider's
    labels), such that: every row of the input is first coerced (the cells
    of the five numeric fields become numbers, those that are not numeric
    become NaN, nothing else changes); the rows of [d] are the coerced rows
    whose open, high, low and close are not all null, in their order; so no
    row of [d] has all four null, and every coerced row with one of them
    present is in [d]. *)
Theorem clean_drops_exactly_all_null_rows (X : externals) (df : DataFrame) :
  cleanable df ->
  exists d coerced,
    clean X df = Returned d
    /\ columns d = FlatIndex (column_names df)
    /\ Forall2 (coerced_row X numeric_cols (column_names df)) (rows df) coerced
    /\ rows d = filter (fun r => negb (ohlc_all_null d r)) coerced
    /\ (forall r, In r (rows d) -> ohlc_all_null d r = false)
    /\ (forall r, In r coerced -> ohlc_all_null d r = false -> In r (rows d)).
Proof.
  intros Hc. apply (clean_returns X) in Hc. destruct Hc as [d Hd].
  destruct (clean_spec _ _ _ Hd) as (c & Hcols & Hrows & Hfilter & _).
  exists d, c. repeat split; auto.
  - intros r Hin. rewrite Hfilter in Hin. apply filter_In in Hin.
    now apply negb_true_iff.
  - intros r Hin Hnull. rewrite Hfilter. apply filter_In. split; [assumption |].
    now rewrite Hnull.
Qed.

Lemma clean_drops_exactly_all_null_rows_witness :
  exists d coerced,
    clean (sample_world (Returned gap_frame) (Returned ok_response)
                        (Returned fifteen_stories)) gap_frame = Returned d
    /\ columns d = FlatIndex (column_names gap_frame)
    /\ Forall2 (coerced_row (sample_world (Returned gap_frame) (Returned ok_response)
                                          (Returned fifteen_stories))
                            numeric_cols (column_names gap_frame))
               (rows gap_frame) coerced
    /\ rows d = filter (fun r => negb (ohlc_all_null d r)) coerced
    /\ (forall r, In r (rows d) -> ohlc_all_null d r = false)
    /\ (forall r, In r coerced -> ohlc_all_null d r = false -> In r (rows d)).
Proof.
  apply (clean_drops_exactly_all_null_rows
           (sample_world (Returned gap_frame) (Returned ok_response)
                         (Returned fifteen_stories))
           gap_frame).
  split.
  - repeat (apply Forall_cons; [eexists; reflexivity |]). apply Forall_nil.
  - intros _. eexists. reflexivity.
Defined.

(** The second row of [gap_frame] holds a text and [None] where prices
    should be: after coercion all four prices are NaN and the row goes; the
    third row has a high only and stays. *)
Example clean_gap_frame :
  clean (sample_world (Returned gap_frame) (Returned ok_response)
                      (Returned fifteen_stories)) gap_frame
  = Returned (ohlcv_frame [day 1 100 110 98 99 1000;
                           mk_row 3 [NaN; Float 106; NaN; NaN; Float 2000]]%float).
Proof. reflexivity. Qed.

(** A frame without a [Low] column stops the cleaning with [KeyError]; a
    frame with two [Close] columns stops it with [TypeError]. *)
Example clean_needs_price_columns :
  clean (sample_world (Returned gap_frame) (Returned ok_response)
                      (Returned fifteen_stories))
        (mk_frame (FlatIndex ["Close"; "High"; "Open"]) [mk_row 1 [NaN; NaN; NaN]])
  = Raised (mk_exception KeyError "['Low']")
  /\ clean (sample_world (Returned gap_frame) (Returned ok_response)
                         (Returned fifteen_stories))
           (mk_frame (MultiIndex [("Close", ["A"]); ("Close", ["B"])])
                     [mk_row 1 [NaN; NaN]])
     = Raised (mk_exception TypeError "arg must be a list, tuple, 1-d array, or Series").
Proof. split; reflexivity. Qed.

(** *** The order of float64 *)

Lemma SFeqb_refl (a : spec_float) : SFeqb a a = negb (sf_nan a).
Proof.
  destruct a as [s | s | | s m e]; try destruct s; cbn; try reflexivity;
    change (PosDef.Pos.compare_cont Eq m m) with (Pos.compare m m);
    rewrite Z.compare_refl, Pos.compare_refl; reflexivity.
Qed.

Lemma SFleb_refl (a : spec_float) : sf_nan a = false -> SFleb a a = true.
Proof.
  intros H. pose proof (SFeqb_refl a) as E. rewrite H in E.
  unfold SFeqb in E. unfold SFleb. destruct (SFcompare a a) as [[] |]; cbn in E; congruence.
Qed.

Lemma SFltb_false_leb (a b : spec_float) :
  sf_nan a = false -> sf_nan b = false -> SFltb a b = false -> SFleb b a = true.
Proof.
  unfold SFltb, SFleb.
  destruct a as [s | s | | s m e], b as [s' | s' | | s' m' e'];
    try destruct s; try destruct s'; cbn; try congruence; intros _ _;
    cmp_cases; try congruence; subst; lia.
Qed.

Lemma SFltb_leb (a b : spec_float) : SFltb a b = true -> SFleb a b = true.
Proof.
  unfold SFltb, SFleb. destruct (SFcompare a b) as [[] |]; congruence.
Qed.

Lemma SFleb_trans (a b c : spec_float) :
  SFleb a b = true -> SFleb b c = true -> SFleb a c = true.
Proof.
  unfold SFleb.
  destruct a as [s | s | | s m e], b as [s' | s' | | s' m' e'], c as [t | t | | t n f];
    try destruct s; try destruct s'; try destruct t; cbn; try congruence;
    cmp_cases; try congruence; subst; lia.
Qed.

Lemma is_nan_sf (x : float) : PrimFloat.is_nan x = sf_nan (Prim2SF x).
Proof.
  unfold PrimFloat.is_nan. rewrite eqb_spec, SFeqb_refl. apply negb_involutive.
Qed.

Lemma leb_refl (x : float) : PrimFloat.is_nan x = false -> (x <=? x)%float = true.
Proof. rewrite is_nan_sf, leb_spec. apply SFleb_refl. Qed.

Lemma ltb_false_leb (x y : float) :
  PrimFloat.is_nan x = false -> PrimFloat.is_nan y = false ->
  (x <? y)%float = false -> (y <=? x)%float = true.
Proof. rewrite !is_nan_sf, ltb_spec, leb_spec. apply SFltb_false_leb. Qed.

Lemma ltb_leb (x y : float) : (x <? y)%float = true -> (x <=? y)%float = true.
Proof. rewrite ltb_spec, leb_spec. apply SFltb_leb. Qed.

Lemma leb_trans (x y z : float) :
  (x <=? y)%float = true -> (y <=? z)%float = true -> (x <=? z)%float = true.
Proof. rewrite !leb_spec. apply SFleb_trans. Qed.

(** *** Maximum and minimum of a Series *)

Lemma fold_fmax (l : list float) (a : float) :
  PrimFloat.is_nan a = false ->
  Forall (fun x => PrimFloat.is_nan x = false) l ->
  In (fold_left fmax l a) (a :: l)
  /\ PrimFloat.is_nan (fold_left fmax l a) = false
  /\ forall x, In x (a :: l) -> (x <=? fold_left fmax l a)%float = true.
Proof.
  revert a. induction l as [| y l IH]; intros a Ha Hl; cbn [fold_left].
  - split; [now left |]. split; [assumption |].
    intros x [<- | []]. now apply leb_refl.
  - inversion Hl as [| ? ? Hy Hl']; subst.
    assert (Hstep : PrimFloat.is_nan (fmax a y) = false
                    /\ (fmax a y = a \/ fmax a y = y)
                    /\ (a <=? fmax a y)%float = true
                    /\ (y <=? fmax a y)%float = true).
    { unfold fmax. destruct (a <? y)%float eqn:E.
      - auto using ltb_leb, leb_refl.
      - auto 6 using ltb_false_leb, leb_refl. }
    destruct Hstep as (Hn & Hor & Hale & Hyle).
    destruct (IH (fmax a y) Hn Hl') as (Hin & Hnan & Hub).
    split; [| split; [assumption |]].
    + destruct Hin as [Hin | Hin]; [| right; now right].
      rewrite <- Hin. destruct Hor as [-> | ->]; [now left | right; now left].
    + assert (Hm : (fmax a y <=? fold_left fmax l (fmax a y))%float = true)
        by (apply Hub; now left).
      intros x [<- | [<- | Hx]]; eauto using leb_trans.
      apply Hub. now right.
Qed.

Lemma fold_fmin (l : list float) (a : float) :
  PrimFloat.is_nan a = false ->
  Forall (fun x => PrimFloat.is_nan x = false) l ->
  In (fold_left fmin l a) (a :: l)
  /\ PrimFloat.is_nan (fold_left fmin l a) = false
  /\ forall x, In x (a :: l) -> (fold_left fmin l a <=? x)%float = true.
Proof.
  revert a. induction l as [| y l IH]; intros a Ha Hl; cbn [fold_left].
  - split; [now left |]. split; [assumption |].
    intros x [<- | []]. now apply leb_refl.
  - inversion Hl as [| ? ? Hy Hl']; subst.
    assert (Hstep : PrimFloat.is_nan (fmin a y) = false
                    /\ (fmin a y = a \/ fmin a y = y)
                    /\ (fmin a y <=? a)%float = true
                    /\ (fmin a y <=? y)%float = true).
    { unfold fmin. destruct (y <? a)%float eqn:E.
      - auto using ltb_leb, leb_refl.
      - auto 6 using ltb_false_leb, leb_refl. }
    destruct Hstep as (Hn & Hor & Hale & Hyle).
    destruct (IH (fmin a y) Hn Hl') as (Hin & Hnan & Hlb).
    split; [| split; [assumption |]].
    + destruct Hin as [Hin | Hin]; [| right; now right].
      rewrite <- Hin. destruct Hor as [-> | ->]; [now left | right; now left].
    + assert (Hm : (fold_left fmin l (fmin a y) <=? fmin a y)%float = true)
        by (apply Hlb; now left).
      intros x [<- | [<- | Hx]]; eauto using leb_trans.
      apply Hlb. now right.
Qed.

Lemma filter_notnan_nil (xs : list float) :
  filter notnan xs = [] -> Forall (fun x => PrimFloat.is_nan x = true) xs.
Proof.
  induction xs as [| x xs IH]; cbn; [constructor |].
  unfold notnan at 1. destruct (PrimFloat.is_nan x) eqn:E; cbn; [| discriminate].
  intros H. constructor; auto.
Qed.

Lemma filter_notnan_Forall (xs : list float) :
  Forall (fun x => PrimFloat.is_nan x = false) (filter notnan xs).
Proof.
  apply Forall_forall. intros x Hin. apply filter_In in Hin.
  destruct Hin as [_ Hn]. unfold notnan in Hn. now apply negb_true_iff.
Qed.

Lemma nanmax_is_maximum (xs : list float) : is_maximum (nanmax xs) xs.
Proof.
  unfold nanmax, nan_reduce, is_maximum.
  destruct (filter notnan xs) as [| a l] eqn:E.
  - left. split; [now apply filter_notnan_nil | reflexivity].
  - right. pose proof (filter_notnan_Forall xs) as Hall. rewrite E in Hall.
    inversion Hall as [| ? ? Ha Hl]; subst.
    destruct (fold_fmax l a Ha Hl) as (Hin & Hnan & Hub).
    split; [| split; [assumption |]].
    + rewrite <- E in Hin. apply filter_In in Hin. apply Hin.
    + intros x Hx Hxn. apply Hub. rewrite <- E. apply filter_In.
      split; [assumption |]. unfold notnan. now rewrite Hxn.
Qed.

Lemma nanmin_is_minimum (xs : list float) : is_minimum (nanmin xs) xs.
Proof.
  unfold nanmin, nan_reduce, is_minimum.
  destruct (filter notnan xs) as [| a l] eqn:E.
  - left. split; [now apply filter_notnan_nil | reflexivity].
  - right. pose proof (filter_notnan_Forall xs) as Hall. rewrite E in Hall.
    inversion Hall as [| ? ? Ha Hl]; subst.
    destruct (fold_fmin l a Ha Hl) as (Hin & Hnan & Hlb).
    split; [| split; [assumption |]].
    + rewrite <- E in Hin. apply filter_In in Hin. apply Hin.
    + intros x Hx Hxn. apply Hlb. rewrite <- E. apply filter_In.
      split; [assumption |]. unfold notnan. now rewrite Hxn.
Qed.

(** *** The columns of a cleaned frame *)

Lemma clean_located (X : externals) (df d : DataFrame) (col : string) :
  clean X df = Returned d ->
  In col ohlc ->
  exists i, locate (column_names d) col = Returned i.
Proof.
  intros H Hin. rewrite (column_names_clean _ _ _ H).
  destruct (clean_spec _ _ _ H) as (c & _ & _ & _ & Hloc & _).
  exact (proj1 (Forall_forall _ _) Hloc col Hin).
Qed.

Lemma clean_float_cell (X : externals) (df d : DataFrame) (col : string) (i : nat) (r : Row) :
  clean X df = Returned d ->
  In col numeric_cols ->
  locate (column_names d) col = Returned i ->
  In r (rows d) ->
  cell_at i r = Float (field d col r).
Proof.
  intros H Hcol Hloc Hin. unfold field. rewrite Hloc.
  destruct (clean_spec _ _ _ H) as (c & _ & Hrows & Hfilter & _).
  rewrite Hfilter in Hin. apply filter_In in Hin. destruct Hin as [Hin _].
  destruct (Forall2_In_r _ _ _ _ Hrows Hin) as (r0 & _ & _ & Hcells).
  rewrite (column_names_clean _ _ _ H) in Hloc.
  rewrite Hcells, (position_among_In _ _ col i (locate_nth_error _ _ _ Hloc) Hcol).
  rewrite (to_numeric_float X (cell_at i r0)). reflexivity.
Qed.

Lemma get_series_cleaned (X : externals) (df d : DataFrame) (col : string) (i : nat) :
  clean X df = Returned d ->
  In col numeric_cols ->
  locate (column_names d) col = Returned i ->
  get_series d col = Returned (map (fun r => Float (field d col r)) (rows d)).
Proof.
  intros H Hcol Hloc. unfold get_series. rewrite Hloc. cbn. f_equal.
  apply map_ext_in. intros r Hin. eapply clean_float_cell; eauto.
Qed.

Lemma get_series_price (X : externals) (df d : DataFrame) (col : string) :
  clean X df = Returned d ->
  In col ohlc ->
  get_series d col = Returned (map (fun r => Float (field d col r)) (rows d)).
Proof.
  intros H Hin. destruct (clean_located _ _ _ _ H Hin) as [i Hi].
  eapply get_series_cleaned; eauto using ohlc_numeric.
Qed.

Lemma float_values_map {A : Type} (g : A -> float) (l : list A) :
  float_values (map (fun r => Float (g r)) l) = Some (map g l).
Proof. induction l as [| a l IH]; cbn; [reflexivity | now rewrite IH]. Qed.

Lemma is_object_floats {A : Type} (g : A -> float) (l : list A) :
  is_object (map (fun r => Float (g r)) l) = false.
Proof. induction l as [| a l IH]; cbn; [reflexivity | exact IH]. Qed.

Lemma iloc_last (s : list cell) (c : cell) : iloc (s ++ [c]) (-1) = Returned c.
Proof.
  unfold iloc. rewrite length_app. cbn [length].
  change (-1 <? 0)%Z with true. cbn iota.
  replace (Z.of_nat (length s + 1) + -1)%Z with (Z.of_nat (length s)) by lia.
  destruct ((0 <=? Z.of_nat (length s))%Z
            && (Z.of_nat (length s) <? Z.of_nat (length s + 1))%Z) eqn:E.
  - rewrite Nat2Z.id. now rewrite nth_middle.
  - apply andb_false_iff in E.
    destruct E as [E | E]; [apply Z.leb_gt in E | apply Z.ltb_ge in E]; lia.
Qed.

Lemma iloc_last_but_one (s : list cell) (p c : cell) :
  iloc (s ++ [p; c]) (-2) = Returned p.
Proof.
  unfold iloc. rewrite length_app. cbn [length].
  change (-2 <? 0)%Z with true. cbn iota.
  replace (Z.of_nat (length s + 2) + -2)%Z with (Z.of_nat (length s)) by lia.
  destruct ((0 <=? Z.of_nat (length s))%Z
            && (Z.of_nat (length s) <? Z.of_nat (length s + 2))%Z) eqn:E.
  - rewrite Nat2Z.id. now rewrite nth_middle.
  - apply andb_false_iff in E.
    destruct E as [E | E]; [apply Z.leb_gt in E | apply Z.ltb_ge in E]; lia.
Qed.

(** *** The key metrics of a cleaned frame *)

Lemma key_metrics_several (X : externals) (df d : DataFrame)
    (earlier : list Row) (prev latest : Row) :
  clean X df = Returned d ->
  rows d = earlier ++ [prev; latest] ->
  key_metrics X d =
    ([st_metric 1 (rupee "Last Price") (money (field d "Close" latest)) None;
      st_metric 2 (rupee "Change")
        (money (field d "Close" latest - field d "Close" prev)%float)
        (Some (percent ((field d "Close" latest - field d "Close" prev)
                        / field d "Close" prev * 100)%float));
      st_metric 3 (rupee "Period High")
        (money (series_max X (map (field d "High") (rows d)))) None;
      st_metric 4 (rupee "Period Low")
        (money (series_min X (map (field d "Low") (rows d)))) None],
     Returned tt).
Proof.
  intros H Hrows. unfold key_metrics.
  rewrite (get_series_price X df d "Close" H) by (cbn; auto).
  rewrite (get_series_price X df d "High" H) by (cbn; auto).
  rewrite (get_series_price X df d "Low" H) by (cbn; auto).
  rewrite !bind_lift_returned.
  assert (Hlen : (1 <? length (map (fun r => Float (field d "Close" r)) (rows d)))%nat = true).
  { apply Nat.ltb_lt. rewrite length_map, Hrows, length_app. cbn. lia. }
  rewrite Hlen, is_object_floats. unfold reduce_series, divide.
  rewrite !float_values_map. cbn [andb].
  generalize (series_max X (map (field d "High") (rows d))) as hi.
  generalize (series_min X (map (field d "Low") (rows d))) as lo.
  intros lo hi. rewrite Hrows, map_app. cbn [map].
  change [Float (field d "Close" prev); Float (field d "Close" latest)]
    with ([Float (field d "Close" prev)] ++ [Float (field d "Close" latest)]).
  rewrite app_assoc, iloc_last, <- app_assoc. cbn [app].
  rewrite iloc_last_but_one. reflexivity.
Qed.

Lemma key_metrics_single (X : externals) (df d : DataFrame) (latest : Row) :
  clean X df = Returned d ->
  rows d = [latest] ->
  key_metrics X d =
    ([st_metric 1 (rupee "Last Price") (money (field d "Close" latest)) None;
      st_metric 2 (rupee "Change") (text "N/A") (Some (text "N/A"));
      st_metric 3 (rupee "Period High")
        (money (series_max X (map (field d "High") (rows d)))) None;
      st_metric 4 (rupee "Period Low")
        (money (series_min X (map (field d "Low") (rows d)))) None],
     Returned tt).
Proof.
  intros H Hrows. unfold key_metrics.
  rewrite (get_series_price X df d "Close" H) by (cbn; auto).
  rewrite (get_series_price X df d "High" H) by (cbn; auto).
  rewrite (get_series_price X df d "Low" H) by (cbn; auto).
  rewrite !bind_lift_returned. unfold reduce_series. rewrite !float_values_map.
  generalize (series_max X (map (field d "High") (rows d))) as hi.
  generalize (series_min X (map (field d "Low") (rows d))) as lo.
  intros lo hi. rewrite Hrows. reflexivity.
Qed.

Lemma last_two {A : Type} (l : list A) :
  2 <= length l -> exists earlier prev latest, l = earlier ++ [prev; latest].
Proof.
  intros Hlen. destruct (exists_last (l := l)) as (l1 & latest & ->).
  { intros ->. cbn in Hlen. lia. }
  rewrite length_app in Hlen. cbn in Hlen.
  destruct (exists_last (l := l1)) as (earlier & prev & ->).
  { intros ->. cbn in Hlen. lia. }
  exists earlier, prev, latest. now rewrite <- app_assoc.
Qed.

(** C4.  On a cleaned frame with at least two rows the change shown is the
    last close minus the close before it, and the percent change is that
    difference divided by the close before it, times 100 (float64
    arithmetic).  On a cleaned frame with one row the change is shown as
    "N/A", no error is shown and the metrics end normally. *)
Theorem change_metric (X : externals) (df d : DataFrame) :
  clean X df = Returned d ->
  (2 <= length (rows d) ->
   exists earlier prev latest,
     rows d = earlier ++ [prev; latest]
     /\ key_metrics X d =
          ([st_metric 1 (rupee "Last Price") (money (field d "Close" latest)) None;
            st_metric 2 (rupee "Change")
              (money (field d "Close" latest - field d "Close" prev)%float)
              (Some (percent ((field d "Close" latest - field d "Close" prev)
                              / field d "Close" prev * 100)%float));
            st_metric 3 (rupee "Period High")
              (money (series_max X (map (field d "High") (rows d)))) None;
            st_metric 4 (rupee "Period Low")
              (money (series_min X (map (field d "Low") (rows d)))) None],
           Returned tt))
  /\ (length (rows d) = 1 ->
      exists latest,
        rows d = [latest]
        /\ key_metrics X d =
             ([st_metric 1 (rupee "Last Price") (money (field d "Close" latest)) None;
               st_metric 2 (rupee "Change") (text "N/A") (Some (text "N/A"));
               st_metric 3 (rupee "Period High")
                 (money (series_max X (map (field d "High") (rows d)))) None;
               st_metric 4 (rupee "Period Low")
                 (money (series_min X (map (field d "Low") (rows d)))) None],
              Returned tt)).
Proof.
  intros H. split.
  - intros Hlen. destruct (last_two _ Hlen) as (earlier & prev & latest & Hrows).
    exists earlier, prev, latest. split; [assumption |].
    now apply key_metrics_several with (X := X) (df := df) (earlier := earlier).
  - intros Hlen. destruct (rows d) as [| latest [| r l]] eqn:Hrows; try discriminate.
    exists latest. split; [reflexivity |]. rewrite <- Hrows.
    now apply key_metrics_single with (X := X) (df := df).
Qed.

Lemma change_metric_witness :
  exists earlier prev latest,
    rows abc_frame = earlier ++ [prev; latest]
    /\ key_metrics demo_world abc_frame =
         ([st_metric 1 (rupee "Last Price") (money (field abc_frame "Close" latest)) None;
           st_metric 2 (rupee "Change")
             (money (field abc_frame "Close" latest - field abc_frame "Close" prev)%float)
             (Some (percent ((field abc_frame "Close" latest - field abc_frame "Close" prev)
                             / field abc_frame "Close" prev * 100)%float));
           st_metric 3 (rupee "Period High")
             (money (series_max demo_world (map (field abc_frame "High") (rows abc_frame)))) None;
           st_metric 4 (rupee "Period Low")
             (money (series_min demo_world (map (field abc_frame "Low") (rows abc_frame)))) None],
          Returned tt).
Proof.
  apply (proj1 (change_metric
                  (sample_world (Returned abc_frame) (Returned ok_response)
                                (Returned fifteen_stories))
                  abc_frame abc_frame eq_refl)).
  cbn. lia.
Defined.

(** The scenario of the specification: closes 100, 105, 95 give a last
    price of 95, a change of -10 and a percent change of about -9.52 (the
    float64 written -0x1.30c30c30c30c3p+3, in decimal -9.5238095238095237);
    the period high and low, 120 and 90, are those of the High and Low
    columns (the closes never leave 95..105). *)
Example abc_key_metrics :
  key_metrics demo_world abc_frame =
    ([st_metric 1 "Last Price (₹)" (money 95) None;
      st_metric 2 "Change (₹)" (money (-10)) (Some (percent ((95 - 105) / 105 * 100)));
      st_metric 3 "Period High (₹)" (money 120) None;
      st_metric 4 "Period Low (₹)" (money 90) None]%float,
     Returned tt)
  /\ ((95 - 105) / 105 * 100 = -0x1.30c30c30c30c3p+3)%float.
Proof. split; reflexivity. Qed.

Lemma period_high_low_is_shown (X : externals) (df d : DataFrame) :
  clean X df = Returned d ->
  rows d <> [] ->
  exists m1 m2 m3 m4,
    key_metrics X d = ([m1; m2; m3; m4], Returned tt)
    /\ filter is_dataframe [m1; m2; m3; m4] = [].
Proof.
  intros H Hne.
  destruct (exists_last Hne) as (l1 & latest & Hrows).
  destruct l1 as [| r l1].
  - do 4 eexists. split.
    + now apply key_metrics_single with (X := X) (df := df) (latest := latest).
    + reflexivity.
  - destruct (exists_last (l := r :: l1)) as (earlier & prev & E); [discriminate |].
    rewrite E, <- app_assoc in Hrows. cbn in Hrows.
    do 4 eexists. split.
    + now apply key_metrics_several with (X := X) (df := df) (earlier := earlier)
                                          (prev := prev) (latest := latest).
    + reflexivity.
Qed.

(** C7.  On a cleaned frame with at least one row, the period high shown is
    what [Series.max] returns on the High column of the frame, and the
    period low what [Series.min] returns on its Low column; with pandas'
    reductions (extrema of the values that are not NaN) the first is the
    maximum of the High column and the second the minimum of the Low
    column: an entry of the column that bounds its other entries.  The
    closes play no part. *)
Theorem period_high_low_from_columns (X : externals) (df d : DataFrame) :
  returns_extrema X ->
  clean X df = Returned d ->
  rows d <> [] ->
  exists last_price change,
    key_metrics X d =
      ([last_price; change;
        st_metric 3 (rupee "Period High")
          (money (series_max X (map (field d "High") (rows d)))) None;
        st_metric 4 (rupee "Period Low")
          (money (series_min X (map (field d "Low") (rows d)))) None],
       Returned tt)
    /\ is_maximum (series_max X (map (field d "High") (rows d)))
                  (map (field d "High") (rows d))
    /\ is_minimum (series_min X (map (field d "Low") (rows d)))
                  (map (field d "Low") (rows d)).
Proof.
  intros Hext H Hne.
  destruct (exists_last Hne) as (l1 & latest & Hrows).
  destruct l1 as [| r l1].
  - do 2 eexists. split; [| split].
    + now apply key_metrics_single with (df := df) (latest := latest).
    + apply Hext.
    + apply Hext.
  - destruct (exists_last (l := r :: l1)) as (earlier & prev & E); [discriminate |].
    rewrite E, <- app_assoc in Hrows. cbn in Hrows.
    do 2 eexists. split; [| split].
    + now apply key_metrics_several with (df := df) (earlier := earlier)
                                          (prev := prev) (latest := latest).
    + apply Hext.
    + apply Hext.
Qed.

(** On the three sample days the period high is 120 and the period low 90,
    the extrema of the High column (110, 120, 106) and of the Low column
    (98, 101, 90); the closes stay between 95 and 105. *)
Lemma period_high_low_from_columns_witness :
  exists last_price change,
    key_metrics demo_world abc_frame =
      ([last_price; change;
        st_metric 3 (rupee "Period High") (money 120) None;
        st_metric 4 (rupee "Period Low") (money 90) None],
       Returned tt)
    /\ is_maximum 120 [110; 120; 106]%float
    /\ is_minimum 90 [98; 101; 90]%float.
Proof.
  refine (period_high_low_from_columns demo_world abc_frame abc_frame _ eq_refl _).
  - intros xs. split; [apply nanmax_is_maximum | apply nanmin_is_minimum].
  - discriminate.
Defined.

(** *** Sorting by date *)







(** *** What is rendered *)

Lemma clean_not_empty (X : externals) (df d : DataFrame) :
  clean X df = Returned d -> rows d <> [] -> empty d = false.
Proof.
  intros H Hne. destruct (clean_located X df d "Open" H) as [i Hi]; [now left |].
  apply locate_nth_error in Hi. unfold empty.
  destruct (column_names d); [now destruct i |].
  destruct (rows d); [now destruct Hne | reflexivity].
Qed.

Lemma render_cleaned (X : externals) (df d : DataFrame) (ticker : string) :
  clean X df = Returned d ->
  rows d <> [] ->
  contains (column_names d) "Volume" = true ->
  exists metrics,
    key_metrics X d = (metrics, Returned tt)
    /\ filter is_dataframe metrics = []
    /\ render X ticker d =
         ([st_subheader "Key Performance Metrics"; st_columns 4] ++ metrics
          ++ [st_markdown "<hr>";
              st_subheader "Price Action: Candlestick Chart";
              st_plotly_chart
                (Candlestick (map label (rows d))
                   (map (fun r => Float (field d "Open" r)) (rows d))
                   (map (fun r => Float (field d "High" r)) (rows d))
                   (map (fun r => Float (field d "Low" r)) (rows d))
                   (map (fun r => Float (field d "Close" r)) (rows d)))
                (ticker ++ " Price Movement");
              st_subheader "Trading Volume Analysis";
              st_plotly_chart
                (Bar (map label (rows d))
                     (map (fun r => Float (field d "Volume" r)) (rows d)))
                (ticker ++ " Trading Volume Over Time");
              st_subheader "Historical Data";
              st_dataframe (sort_index_desc d);
              st_download_button "Download Data as CSV" d (ticker ++ "_data.csv")],
          Returned tt).
Proof.
  intros H Hne Hvol.
  destruct (period_high_low_is_shown X df d H Hne) as (m1 & m2 & m3 & m4 & Hkm & Hfil).
  exists [m1; m2; m3; m4]. split; [assumption |]. split; [assumption |].
  assert (Hv : exists i, locate (column_names d) "Volume" = Returned i).
  { destruct (clean_spec _ _ _ H) as (c & _ & _ & _ & _ & Hnum).
    rewrite (column_names_clean _ _ _ H) in *.
    apply Forall_forall with (x := "Volume") in Hnum; [| cbn; auto 6].
    destruct Hnum as [Hc | Hi]; [congruence | assumption]. }
  destruct Hv as [i Hi].
  unfold render. rewrite (clean_not_empty _ _ _ H Hne), Hkm.
  rewrite (get_series_price X df d "Open" H) by (cbn; auto).
  rewrite (get_series_price X df d "High" H) by (cbn; auto).
  rewrite (get_series_price X df d "Low" H) by (cbn; auto).
  rewrite (get_series_price X df d "Close" H) by (cbn; auto).
  rewrite (get_series_cleaned X df d "Volume" i H) by (cbn; auto 6).
  reflexivity.
Qed.




(** The table of the three sample days: day 3 first, day 1 last. *)
Example abc_table :
  map label (rows (sort_index_desc abc_frame)) = [3; 2; 1]%Z
  /\ map label (rows (sort_index_desc
                        (ohlcv_frame [day 2 1 1 1 1 1; day 3 1 1 1 1 1;
                                      day 1 1 1 1 1 1]%float)))
     = [3; 2; 1]%Z.
Proof. split; reflexivity. Qed.

(** C9.  When the provider delivers rows but none survives the cleaning,
    the script shows the error "No valid data found after cleaning" and
    nothing else: no metric, no chart, no table, no download button. *)
Theorem empty_after_cleaning_is_an_error (X : externals) (ticker : string)
    (s e : Z) (df d : DataFrame) :
  ticker <> "" ->
  yf_download X ticker s e = Returned df ->
  empty df = false ->
  clean X df = Returned d ->
  rows d = [] ->
  analysis X true ticker s e =
    ([yf_download_call ticker s e;
      st_error "No valid data found after cleaning. Please check the ticker or date range."],
     Returned tt)
  /\ filter is_rendering (fst (analysis X true ticker s e)) = [].
Proof.
  intros Ht Hd He Hc Hr.
  assert (Hrun : analysis X true ticker s e =
                 ([yf_download_call ticker s e;
                   st_error "No valid data found after cleaning. Please check the ticker or date range."],
                  Returned tt)).
  { unfold analysis. apply String.eqb_neq in Ht. rewrite Ht. cbn [andb negb].
    rewrite (get_stock_data_returned _ _ _ _ _ Hd), He.
    unfold present. cbn. rewrite He, Hc. cbn.
    unfold render. rewrite (empty_no_rows d Hr). reflexivity. }
  rewrite Hrun. split; reflexivity.
Qed.

Lemma empty_after_cleaning_is_an_error_witness :
  analysis (sample_world (Returned void_frame) (Returned ok_response)
                         (Returned fifteen_stories))
           true "ABC" 1 30
  = ([yf_download_call "ABC" 1 30;
      st_error "No valid data found after cleaning. Please check the ticker or date range."],
     Returned tt)
  /\ filter is_rendering
       (fst (analysis (sample_world (Returned void_frame) (Returned ok_response)
                                    (Returned fifteen_stories))
                      true "ABC" 1 30)) = [].
Proof.
  apply (empty_after_cleaning_is_an_error
           (sample_world (Returned void_frame) (Returned ok_response)
                         (Returned fifteen_stories))
           "ABC" 1 30 void_frame (ohlcv_frame [])).
  - discriminate.
  - reflexivity.
  - reflexivity.
  - reflexivity.
  - reflexivity.
Defined.

(** ** Further properties of the script *)

(** *** The news panel *)


Lemma news_loop (news : list news_item) (shown : list event) :
  fold_left (fun acc item =>
               acc ;;;
               emit (st_markdown ("**[" ++ headline item ++ "](" ++ link item ++ ")**")) ;;;
               emit (st_markdown "---"))
            news (shown, Returned tt)
  = (shown ++ flat_map item_lines news, Returned tt).
Proof.
  revert shown. induction news as [| item news IH]; intros shown; cbn [fold_left flat_map].
  - now rewrite app_nil_r.
  - cbn [bind emit]. rewrite IH. unfold item_lines at 2. now rewrite <- app_assoc.
Qed.

(** X13.  The panel lists every item the scraper returned, in the scraper's
    order: a line with the linked headline, then a rule. *)
Theorem news_panel_lists_every_item (X : externals) (log : list event)
    (news : list news_item) :
  scrape_market_news X default_url = (log, Returned news) ->
  news <> [] ->
  news_panel X = (log ++ flat_map item_lines news, Returned tt).
Proof.
  intros H Hne. unfold news_panel. rewrite H. cbn [bind].
  destruct news as [| item news]; [now destruct Hne |].
  change (ret tt) with (@nil event, Returned tt).
  rewrite news_loop. reflexivity.
Qed.

Lemma news_panel_lists_every_item_witness :
  news_panel (sample_world (Returned abc_frame) (Returned ok_response)
                           (Returned (page_of [story_block "Sensex up" "/a";
                                               story_block "Nifty flat" "/b"])))
  = ([http_get default_url request_headers]
     ++ flat_map item_lines
          [mk_news "Sensex up" "https://economictimes.indiatimes.com/a";
           mk_news "Nifty flat" "https://economictimes.indiatimes.com/b"],
     Returned tt).
Proof.
  apply (news_panel_lists_every_item
           (sample_world (Returned abc_frame) (Returned ok_response)
                         (Returned (page_of [story_block "Sensex up" "/a";
                                             story_block "Nifty flat" "/b"])))
           [http_get default_url request_headers]
           [mk_news "Sensex up" "https://economictimes.indiatimes.com/a";
            mk_news "Nifty flat" "https://economictimes.indiatimes.com/b"]
           eq_refl).
  discriminate.
Defined.

(** X14.  When the page is fetched and parsed but none of its first 10 story
    blocks has a heading and a link (no block at all, say, after a change
    of the site's markup), the panel shows the warning "Could not fetch
    market news" although nothing failed, and no error. *)
Theorem news_panel_warns_without_stories (X : externals) (response : Response)
    (soup : Bs4.node) :
  requests_get X default_url request_headers = Returned response ->
  raise_for_status response = Returned tt ->
  html_parser X (content response) = Returned soup ->
  Forall incomplete_story (firstn 10 (story_blocks soup)) ->
  news_panel X =
    ([http_get default_url request_headers;
      st_warning "Could not fetch market news at the moment."],
     Returned tt).
Proof.
  intros Hg Hs Hp Hall. unfold news_panel.
  rewrite (scrape_market_news_success _ _ _ _ Hg Hs Hp).
  assert (Hnone : flat_map (items_of X) (firstn 10 (story_blocks soup)) = []).
  { induction Hall as [| story l Hi _ IH]; cbn; [reflexivity |].
    rewrite IH. unfold items_of. now rewrite (story_item_incomplete X story Hi). }
  rewrite Hnone. reflexivity.
Qed.

Lemma news_panel_warns_without_stories_witness :
  news_panel (sample_world (Returned abc_frame) (Returned ok_response)
                           (Returned storyless_page))
  = ([http_get default_url request_headers;
      st_warning "Could not fetch market news at the moment."],
     Returned tt).
Proof.
  apply (news_panel_warns_without_stories
           (sample_world (Returned abc_frame) (Returned ok_response)
                         (Returned storyless_page))
           ok_response storyless_page eq_refl eq_refl eq_refl).
  constructor.
Defined.

(** X15.  The scraper returns items only from a response whose status is not an
    error status: with a status from 400 to 599 the list is empty, whatever
    the body holds. *)
Theorem news_only_from_good_status (X : externals) (url : string)
    (log : list event) (news : list news_item) :
  scrape_market_news X url = (log, Returned news) ->
  news <> [] ->
  exists response,
    requests_get X url request_headers = Returned response
    /\ ((status_code response < 400)%Z \/ (600 <= status_code response)%Z).
Proof.
  intros H Hne.
  destruct (scrape_returns _ _ _ _ H) as [-> | (r & soup & Hg & Hs & _)];
    [now destruct Hne |].
  exists r. split; [assumption |].
  unfold raise_for_status in Hs.
  destruct ((400 <=? status_code r)%Z && (status_code r <? 500)%Z) eqn:E1;
    [discriminate |].
  destruct ((500 <=? status_code r)%Z && (status_code r <? 600)%Z) eqn:E2;
    [discriminate |].
  apply andb_false_iff in E1, E2.
  rewrite !Z.leb_gt, !Z.ltb_ge in *. lia.
Qed.

Lemma news_only_from_good_status_witness :
  exists response,
    requests_get (sample_world (Returned abc_frame) (Returned ok_response)
                               (Returned fifteen_stories))
                 default_url request_headers = Returned response
    /\ ((status_code response < 400)%Z \/ (600 <= status_code response)%Z).
Proof.
  refine (news_only_from_good_status
            (sample_world (Returned abc_frame) (Returned ok_response)
                          (Returned fifteen_stories))
            default_url [http_get default_url request_headers]
            (flat_map (items_of (sample_world (Returned abc_frame) (Returned ok_response)
                                              (Returned fifteen_stories)))
                      (firstn 10 (story_blocks fifteen_stories)))
            eq_refl _).
  vm_compute. discriminate.
Defined.

(** *** More on the cleaning *)

Lemma map_nth_fixed {A : Type} (f : A -> A) (d : A) (i : nat) (l : list A) :
  f (nth i l d) = nth i l d -> map_nth f i l = l.
Proof.
  revert i. induction l as [| x l IH]; intros i H; [reflexivity |].
  destruct i as [| i]; cbn in *; [now rewrite H | now rewrite IH].
Qed.

Lemma assign_column_fixed (f : cell -> cell) (i : nat) (df : DataFrame) :
  (forall r, In r (rows df) -> f (cell_at i r) = cell_at i r) ->
  assign_column f i df = df.
Proof.
  intros H. unfold assign_column. destruct df as [cols rs]. cbn in *. f_equal.
  rewrite <- (map_id rs) at 2. apply map_ext_in. intros r Hin.
  rewrite (map_nth_fixed f NaN i (cells r) (H r Hin)). now destruct r.
Qed.

Lemma coerce_columns_fixed (X : externals) (cols : list string) (df df' : DataFrame) :
  (forall col i r,
      In col cols -> locate (column_names df) col = Returned i -> In r (rows df) ->
      to_numeric (float_of_str X) (cell_at i r) = cell_at i r) ->
  coerce_columns (float_of_str X) cols df = Returned df' ->
  df' = df.
Proof.
  induction cols as [| col cols IH]; cbn; intros Hfix H; [congruence |].
  assert (H1 : coerce_column (float_of_str X) df col = Returned df
               \/ exists e, coerce_column (float_of_str X) df col = Raised e).
  { unfold coerce_column. destruct (contains (column_names df) col); [| now left].
    destruct (locate (column_names df) col) as [i | e] eqn:Hl; cbn; [| right; eauto].
    left. f_equal. apply assign_column_fixed. intros r Hin.
    apply (Hfix col i r); [now left | assumption | assumption]. }
  destruct H1 as [H1 | [e H1]]; rewrite H1 in H; cbn in H; [| discriminate].
  apply IH; [| assumption]. intros c i r Hin. apply Hfix. now right.
Qed.

Lemma flatten_flat (df : DataFrame) (names : list string) :
  columns df = FlatIndex names -> flatten_columns df = df.
Proof. intros H. unfold flatten_columns. now rewrite H. Qed.

Lemma ohlc_all_null_names (d d' : DataFrame) (r : Row) :
  column_names d' = column_names d -> ohlc_all_null d' r = ohlc_all_null d r.
Proof. intros H. unfold ohlc_all_null, missing. now rewrite H. Qed.

(** The cleaning, step by step, with the frame between coercion and
    [dropna]. *)
Lemma clean_steps (X : externals) (df d : DataFrame) :
  clean X df = Returned d ->
  exists c,
    coerce_columns (float_of_str X) numeric_cols (flatten_columns df) = Returned c
    /\ columns d = columns c
    /\ columns c = FlatIndex (column_names df)
    /\ rows d = filter (fun r => negb (ohlc_all_null d r)) (rows c).
Proof.
  intros H. pose proof (clean_spec _ _ _ H) as (c0 & Hcd & _ & _ & Hloc & _).
  unfold clean in H.
  destruct (coerce_columns (float_of_str X) numeric_cols (flatten_columns df))
    as [c |] eqn:Hc; cbn [obind] in H; [| discriminate].
  exists c. split; [reflexivity |].
  pose proof (coerce_columns_spec X _ _ _ Hc) as (Hcols & _ & _).
  rewrite columns_flatten in Hcols.
  assert (Hnames : column_names c = column_names df)
    by (unfold column_names at 1; now rewrite Hcols).
  unfold dropna_all in H. rewrite Hnames in H. cbv zeta in H.
  pose proof (all_na_located (column_names df) ohlc) as Hna.
  set (ixs := flat_map (get_indexer_for (column_names df)) ohlc) in *.
  destruct (filter (fun col => negb (contains (column_names df) col)) ohlc)
    as [| a absent]; [| discriminate].
  injection H as <-. cbn [rows columns]. repeat split; try assumption.
  apply filter_ext. intros r. f_equal. rewrite (Hna r Hloc).
  unfold ohlc_all_null, missing, column_names. cbn [columns]. now rewrite Hcols.
Qed.

Lemma filter_all {A : Type} (p : A -> bool) (l : list A) :
  (forall x, In x l -> p x = true) -> filter p l = l.
Proof.
  induction l as [| x l IH]; cbn; intros H; [reflexivity |].
  rewrite (H x) by now left. f_equal. apply IH. intros y Hy. apply H. now right.
Qed.

(** X1.  Cleaning a cleaned frame changes nothing: the labels are flat already,
    the numeric fields hold numbers, and no row is without prices. *)
Theorem clean_idempotent (X : externals) (df d : DataFrame) :
  clean X df = Returned d -> clean X d = Returned d.
Proof.
  intros H.
  assert (Hc : cleanable d).
  { unfold cleanable. rewrite (column_names_clean _ _ _ H).
    apply (clean_returns X). eauto. }
  apply (clean_returns X) in Hc. destruct Hc as [d2 H2]. rewrite H2. f_equal.
  destruct (clean_steps _ _ _ H) as (c & _ & Hdc & Hcf & Hrows).
  destruct (clean_steps _ _ _ H2) as (c2 & Hc2 & Hd2 & Hc2f & Hrows2).
  assert (Hflat : flatten_columns d = d)
    by (apply flatten_flat with (names := column_names df); congruence).
  rewrite Hflat in Hc2.
  assert (Hcd : c2 = d).
  { apply (coerce_columns_fixed X numeric_cols d c2); [| assumption].
    intros col i r Hcol Hloc Hin.
    rewrite (clean_float_cell X df d col i r H Hcol Hloc Hin). reflexivity. }
  subst c2.
  assert (Hnames : column_names d2 = column_names d)
    by (unfold column_names; now rewrite Hd2).
  assert (Hr2 : rows d2 = rows d).
  { rewrite Hrows2. apply filter_all. intros r Hin.
    rewrite (ohlc_all_null_names d d2 r Hnames).
    rewrite Hrows in Hin. apply filter_In in Hin. apply Hin. }
  destruct d2 as [cols2 rs2], d as [cols rs]. cbn in *. congruence.
Qed.

Lemma clean_idempotent_witness :
  clean (sample_world (Returned gap_frame) (Returned ok_response)
                      (Returned fifteen_stories))
        (ohlcv_frame [day 1 100 110 98 99 1000;
                      mk_row 3 [NaN; Float 106; NaN; NaN; Float 2000]]%float)
  = Returned (ohlcv_frame [day 1 100 110 98 99 1000;
                           mk_row 3 [NaN; Float 106; NaN; NaN; Float 2000]]%float).
Proof.
  exact (clean_idempotent
           (sample_world (Returned gap_frame) (Returned ok_response)
                         (Returned fifteen_stories))
           gap_frame _ eq_refl).
Defined.

(** A column outside the five numeric fields is left as it is, text
    included. *)
Example clean_keeps_other_columns :
  clean (sample_world (Returned annotated_frame) (Returned ok_response)
                      (Returned fifteen_stories)) annotated_frame
  = Returned annotated_frame.
Proof. reflexivity. Qed.

Lemma coerced_labels (X : externals) (cols names : list string) (l c : list Row) :
  Forall2 (coerced_row X cols names) l c -> map label c = map label l.
Proof.
  induction 1 as [| r r' l c [Hl _] _ IH]; cbn; [reflexivity | now rewrite Hl, IH].
Qed.

Lemma increasing_labels (l l' : list Row) :
  map label l' = map label l -> increasing l -> increasing l'.
Proof.
  unfold increasing. intros Hm Hs. revert l' Hm.
  induction Hs as [| r l _ IH Hr]; intros [| r' l'] Hm; try discriminate;
    [constructor |].
  cbn in Hm. injection Hm as Hlab Hrest. constructor; [now apply IH |].
  apply Forall_forall. intros x Hx. apply (in_map label) in Hx.
  rewrite Hrest in Hx. apply in_map_iff in Hx. destruct Hx as (y & Hy & Hin).
  rewrite Hlab, <- Hy. exact (proj1 (Forall_forall _ _) Hr y Hin).
Qed.

Lemma increasing_filter (p : Row -> bool) (l : list Row) :
  increasing l -> increasing (filter p l).
Proof.
  unfold increasing. induction 1 as [| r l _ IH Hr]; cbn; [constructor |].
  destruct (p r); [| assumption]. constructor; [assumption |].
  apply Forall_forall. intros x Hx. apply filter_In in Hx.
  exact (proj1 (Forall_forall _ _) Hr x (proj1 Hx)).
Qed.

(** X2.  The cleaning adds no row and invents no date, and it keeps the order:
    when the dates of the provider's frame increase strictly, so do those
    of the cleaned frame. *)
Theorem clean_keeps_dates_increasing (X : externals) (df d : DataFrame) :
  clean X df = Returned d ->
  length (rows d) <= length (rows df)
  /\ (forall r, In r (rows d) -> In (label r) (map label (rows df)))
  /\ (increasing (rows df) -> increasing (rows d)).
Proof.
  intros H. destruct (clean_spec _ _ _ H) as (c & _ & Hrows & Hfilter & _).
  pose proof (coerced_labels _ _ _ _ _ Hrows) as Hlab.
  rewrite Hfilter. split; [| split].
  - rewrite <- (length_map label (rows df)), <- Hlab, length_map.
    apply filter_length_le.
  - intros r Hin. apply filter_In in Hin. rewrite <- Hlab.
    apply in_map. apply Hin.
  - intros Hinc. apply increasing_filter. now apply increasing_labels with (l := rows df).
Qed.

Lemma clean_keeps_dates_increasing_witness :
  length (rows (ohlcv_frame [day 1 100 110 98 99 1000;
                             mk_row 3 [NaN; Float 106; NaN; NaN; Float 2000]]%float))
  <= length (rows gap_frame)
  /\ (forall r,
         In r (rows (ohlcv_frame [day 1 100 110 98 99 1000;
                                  mk_row 3 [NaN; Float 106; NaN; NaN; Float 2000]]%float)) ->
         In (label r) (map label (rows gap_frame)))
  /\ (increasing (rows gap_frame) ->
      increasing (rows (ohlcv_frame [day 1 100 110 98 99 1000;
                                     mk_row 3 [NaN; Float 106; NaN; NaN; Float 2000]]%float))).
Proof.
  exact (clean_keeps_dates_increasing
           (sample_world (Returned gap_frame) (Returned ok_response)
                         (Returned fifteen_stories))
           gap_frame _ eq_refl).
Defined.

(** X3.  On a frame that holds float64 cells only, as the provider delivers it,
    the cleaning alters no cell: the result is the input with its labels
    flattened and the rows without prices removed. *)
Theorem clean_leaves_numbers_alone (X : externals) (df d : DataFrame) :
  all_float df ->
  clean X df = Returned d ->
  columns d = FlatIndex (column_names df)
  /\ rows d = filter (fun r => negb (ohlc_all_null d r)) (rows df).
Proof.
  intros Hall H. destruct (clean_steps _ _ _ H) as (c & Hc & Hdc & Hcf & Hrows).
  assert (Hfix : c = flatten_columns df).
  { apply (coerce_columns_fixed X numeric_cols); [| assumption].
    intros col i r _ _ Hin. rewrite rows_flatten in Hin.
    unfold cell_at. destruct (nth_in_or_default i (cells r) NaN) as [Hc' | ->];
      [| reflexivity].
    unfold all_float in Hall.
    destruct (proj1 (Forall_forall _ _)
                (proj1 (Forall_forall _ _) Hall r Hin) _ Hc') as [x ->].
    reflexivity. }
  subst c. rewrite rows_flatten in Hrows. split; [congruence | assumption].
Qed.

Lemma clean_leaves_numbers_alone_witness :
  columns abc_frame = FlatIndex (column_names abc_frame)
  /\ rows abc_frame
     = filter (fun r => negb (ohlc_all_null abc_frame r)) (rows abc_frame).
Proof.
  apply (clean_leaves_numbers_alone
           (sample_world (Returned abc_frame) (Returned ok_response)
                         (Returned fifteen_stories))
           abc_frame abc_frame).
  - unfold all_float. cbn. repeat (constructor; eauto).
  - reflexivity.
Defined.

(** X4.  After the cleaning no text and no [None] is left in the columns
    among Open, High, Low, Close and Volume that the frame has: each is a
    Series of numbers, one per row. *)
Theorem cleaned_numeric_columns_hold_no_text (X : externals) (df d : DataFrame)
    (col : string) :
  clean X df = Returned d ->
  In col numeric_cols ->
  contains (column_names d) col = true ->
  exists series,
    get_series d col = Returned series
    /\ length series = length (rows d)
    /\ Forall (fun c => c <> PyNone /\ forall t, c <> Str t) series.
Proof.
  intros H Hcol Hc.
  destruct (clean_spec _ _ _ H) as (c & _ & _ & _ & _ & Hnum).
  rewrite (column_names_clean _ _ _ H) in Hc.
  destruct (proj1 (Forall_forall _ _) Hnum col Hcol) as [Hf | [i Hi]]; [congruence |].
  rewrite <- (column_names_clean _ _ _ H) in Hi.
  exists (map (fun r => Float (field d col r)) (rows d)). split; [| split].
  - exact (get_series_cleaned X df d col i H Hcol Hi).
  - apply length_map.
  - apply Forall_forall. intros x Hx. apply in_map_iff in Hx.
    destruct Hx as (r & <- & _). split; [discriminate | intros t; discriminate].
Qed.

Lemma cleaned_numeric_columns_hold_no_text_witness :
  exists series,
    get_series (ohlcv_frame [day 1 100 110 98 99 1000;
                             mk_row 3 [NaN; Float 106; NaN; NaN; Float 2000]]%float)
               "High" = Returned series
    /\ length series
       = length (rows (ohlcv_frame [day 1 100 110 98 99 1000;
                                    mk_row 3 [NaN; Float 106; NaN; NaN; Float 2000]]%float))
    /\ Forall (fun c => c <> PyNone /\ forall t, c <> Str t) series.
Proof.
  apply (cleaned_numeric_columns_hold_no_text
           (sample_world (Returned gap_frame) (Returned ok_response)
                         (Returned fifteen_stories))
           gap_frame _ "High" eq_refl).
  - cbn. auto.
  - reflexivity.
Defined.

(** *** When the cleaning raises *)

Lemma contains_true_indexer (names : list string) (col : string) :
  contains names col = true -> get_indexer_for names col <> [].
Proof.
  unfold contains. intros H. apply existsb_exists in H.
  destruct H as (x & Hin & Heq). apply String.eqb_eq in Heq. subst x.
  apply In_nth_error in Hin. destruct Hin as [n Hn].
  apply get_indexer_for_In in Hn. intros E. rewrite E in Hn. destruct Hn.
Qed.

Lemma locate_raises (names : list string) (col : string) (e : exception) :
  locate names col = Raised e ->
  (exc_class e = KeyError /\ get_indexer_for names col = [])
  \/ (exc_class e = TypeError /\ 2 <= length (get_indexer_for names col)).
Proof.
  unfold locate. destruct (get_indexer_for names col) as [| a [| b l]];
    intros [= <-]; cbn; [left | right]; split; auto; lia.
Qed.

Lemma coerce_columns_raises (X : externals) (cols : list string) (df : DataFrame)
    (e : exception) :
  coerce_columns (float_of_str X) cols df = Raised e ->
  exc_class e = TypeError
  /\ exists col, In col cols /\ 2 <= length (get_indexer_for (column_names df) col).
Proof.
  revert df. induction cols as [| col cols IH]; intros df; cbn; [discriminate |].
  destruct (coerce_column (float_of_str X) df col) as [d1 | e1] eqn:H1; cbn.
  - intros H. apply coerce_column_spec in H1. destruct H1 as (Hc & _).
    destruct (IH _ H) as (Hcls & c & Hin & Hdup). split; [assumption |].
    exists c. split; [now right |]. unfold column_names in *. now rewrite <- Hc.
  - intros [= <-]. unfold coerce_column in H1.
    destruct (contains (column_names df) col) eqn:Hcon; [| discriminate].
    destruct (locate (column_names df) col) as [i | e2] eqn:Hl; cbn in H1;
      [discriminate |].
    injection H1 as <-.
    destruct (locate_raises _ _ _ Hl) as [[_ Hnil] | [Hcls Hdup]].
    + now apply contains_true_indexer in Hcon.
    + split; [assumption |]. exists col. split; [now left | assumption].
Qed.

Lemma clean_raises_class (X : externals) (df : DataFrame) (e : exception) :
  clean X df = Raised e -> exc_class e = TypeError \/ exc_class e = KeyError.
Proof.
  unfold clean.
  destruct (coerce_columns (float_of_str X) numeric_cols (flatten_columns df))
    as [c | e1] eqn:Hc; cbn [obind].
  - unfold dropna_all. cbv zeta.
    destruct (filter _ ohlc); [discriminate |].
    intros [= <-]. now right.
  - intros [= <-]. left. now apply coerce_columns_raises in Hc.
Qed.

(** X5.  The cleaning raises in two ways only: [TypeError], when one of the five
    numeric labels is carried by two or more columns (the frame of a query
    for several tickers, once flattened), and [KeyError], when the frame
    lacks one of Open, High, Low, Close. *)
Theorem clean_raises_type_or_key_error (X : externals) (df : DataFrame) (e : exception) :
  clean X df = Raised e ->
  (exc_class e = TypeError
   /\ exists col, In col numeric_cols
                  /\ 2 <= length (get_indexer_for (column_names df) col))
  \/ (exc_class e = KeyError
      /\ exists col, In col ohlc /\ contains (column_names df) col = false).
Proof.
  unfold clean.
  destruct (coerce_columns (float_of_str X) numeric_cols (flatten_columns df))
    as [c | e1] eqn:Hc; cbn [obind].
  - intros H. right.
    pose proof (coerce_columns_spec X _ _ _ Hc) as (Hcols & _ & _).
    rewrite columns_flatten in Hcols.
    assert (Hnames : column_names c = column_names df)
      by (unfold column_names at 1; now rewrite Hcols).
    unfold dropna_all in H. rewrite Hnames in H. cbv zeta in H.
    set (ixs := flat_map (get_indexer_for (column_names df)) ohlc) in *.
    destruct (filter (fun col => negb (contains (column_names df) col)) ohlc)
      as [| a absent] eqn:Habs; [discriminate |].
    injection H as <-. split; [reflexivity |]. exists a.
    assert (Hin : In a (filter (fun col => negb (contains (column_names df) col)) ohlc))
      by (rewrite Habs; now left).
    apply filter_In in Hin. destruct Hin as [Hin Hneg].
    split; [assumption | now apply negb_true_iff].
  - intros [= <-]. left. apply coerce_columns_raises in Hc.
    now rewrite column_names_flatten in Hc.
Qed.

Lemma clean_raises_type_or_key_error_witness :
  (exc_class (mk_exception TypeError "arg must be a list, tuple, 1-d array, or Series")
   = TypeError
   /\ exists col,
        In col numeric_cols
        /\ 2 <= length (get_indexer_for
                          (column_names
                             (mk_frame (MultiIndex [("Close", ["A"]); ("Close", ["B"])])
                                       [mk_row 1 [NaN; NaN]]))
                          col))
  \/ (exc_class (mk_exception TypeError "arg must be a list, tuple, 1-d array, or Series")
      = KeyError
      /\ exists col,
           In col ohlc
           /\ contains (column_names
                          (mk_frame (MultiIndex [("Close", ["A"]); ("Close", ["B"])])
                                    [mk_row 1 [NaN; NaN]]))
                       col = false).
Proof.
  exact (clean_raises_type_or_key_error
           (sample_world (Returned gap_frame) (Returned ok_response)
                         (Returned fifteen_stories))
           (mk_frame (MultiIndex [("Close", ["A"]); ("Close", ["B"])])
                     [mk_row 1 [NaN; NaN]])
           _ eq_refl).
Defined.

(** *** The runs of the analysis block *)

Lemma analysis_idle (X : externals) (analyze_button : bool) (ticker : string) (s e : Z) :
  analyze_button && negb (String.eqb ticker "") = false ->
  analysis X analyze_button ticker s e =
    ([st_info "Enter a stock ticker and click 'Analyze Stock' to see the dashboard."],
     Returned tt).
Proof. intros H. unfold analysis. now rewrite H. Qed.

Lemma analysis_fetch_raised (X : externals) (ticker : string) (s e : Z) (exn : exception) :
  ticker <> "" ->
  yf_download X ticker s e = Raised exn ->
  analysis X true ticker s e =
    if isinstance_Exception exn
    then ([yf_download_call ticker s e;
           st_error ("Error fetching data for " ++ ticker ++ ": " ++ exc_str exn);
           st_error "Could not retrieve data. Please confirm the ticker symbol and selected date range."],
          Returned tt)
    else ([yf_download_call ticker s e], Raised exn).
Proof.
  intros Ht Hd. unfold analysis. apply String.eqb_neq in Ht. rewrite Ht.
  cbn [andb negb]. rewrite (get_stock_data_raised _ _ _ _ _ Hd).
  destruct (isinstance_Exception exn); reflexivity.
Qed.

Lemma analysis_fetch_returned (X : externals) (ticker : string) (s e : Z) (df : DataFrame) :
  ticker <> "" ->
  yf_download X ticker s e = Returned df ->
  analysis X true ticker s e =
    if empty df
    then ([yf_download_call ticker s e;
           st_warning ("No data found for " ++ ticker
                       ++ ". It might be delisted or an incorrect ticker.");
           st_error "Could not retrieve data. Please confirm the ticker symbol and selected date range."],
          Returned tt)
    else match clean X df with
         | Returned d =>
             (yf_download_call ticker s e :: fst (render X ticker d), snd (render X ticker d))
         | Raised exn => ([yf_download_call ticker s e], Raised exn)
         end.
Proof.
  intros Ht Hd. unfold analysis. apply String.eqb_neq in Ht. rewrite Ht.
  cbn [andb negb]. rewrite (get_stock_data_returned _ _ _ _ _ Hd).
  destruct (empty df) eqn:He; [reflexivity |].
  unfold present. cbn [bind app]. rewrite He. cbn [negb].
  destruct (clean X df) as [d | exn]; [| reflexivity].
  rewrite bind_lift_returned. now destruct (render X ticker d).
Qed.

(** X7.  A failed fetch leaves two banners: the error of [get_stock_data] (or
    its warning, when the provider had no rows) and then the error "Could
    not retrieve data" of the caller; the block ends normally and renders
    nothing else. *)
Theorem failed_fetch_shows_two_banners (X : externals) (ticker : string) (s e : Z) :
  ticker <> "" ->
  (forall exn,
      yf_download X ticker s e = Raised exn ->
      isinstance_Exception exn = true ->
      analysis X true ticker s e =
        ([yf_download_call ticker s e;
          st_error ("Error fetching data for " ++ ticker ++ ": " ++ exc_str exn);
          st_error "Could not retrieve data. Please confirm the ticker symbol and selected date range."],
         Returned tt))
  /\ (forall df,
         yf_download X ticker s e = Returned df ->
         empty df = true ->
         analysis X true ticker s e =
           ([yf_download_call ticker s e;
             st_warning ("No data found for " ++ ticker
                         ++ ". It might be delisted or an incorrect ticker.");
             st_error "Could not retrieve data. Please confirm the ticker symbol and selected date range."],
            Returned tt)).
Proof.
  intros Ht. split.
  - intros exn Hd Hc. now rewrite (analysis_fetch_raised _ _ _ _ _ Ht Hd), Hc.
  - intros df Hd He. now rewrite (analysis_fetch_returned _ _ _ _ _ Ht Hd), He.
Qed.

Lemma failed_fetch_shows_two_banners_witness :
  analysis (sample_world (Raised (mk_exception RequestException "timed out"))
                         (Returned ok_response) (Returned fifteen_stories))
           true "ABC" 1 30
  = ([yf_download_call "ABC" 1 30;
      st_error "Error fetching data for ABC: timed out";
      st_error "Could not retrieve data. Please confirm the ticker symbol and selected date range."],
     Returned tt).
Proof.
  refine (proj1 (failed_fetch_shows_two_banners
                   (sample_world (Raised (mk_exception RequestException "timed out"))
                                 (Returned ok_response) (Returned fifteen_stories))
                   "ABC" 1 30 _)
                (mk_exception RequestException "timed out") eq_refl eq_refl).
  discriminate.
Defined.

(** X6.  An exception of the cleaning is caught nowhere: after a provider frame
    with rows on which [clean] raises, the block has shown nothing (no
    banner, no metric, no chart) and the [KeyError] or [TypeError] leaves
    the script. *)
Theorem cleaning_error_is_not_caught (X : externals) (ticker : string) (s e : Z)
    (df : DataFrame) (exn : exception) :
  ticker <> "" ->
  yf_download X ticker s e = Returned df ->
  empty df = false ->
  clean X df = Raised exn ->
  analysis X true ticker s e = ([yf_download_call ticker s e], Raised exn)
  /\ (exc_class exn = TypeError \/ exc_class exn = KeyError).
Proof.
  intros Ht Hd He Hc. split.
  - now rewrite (analysis_fetch_returned _ _ _ _ _ Ht Hd), He, Hc.
  - exact (clean_raises_class _ _ _ Hc).
Qed.

Lemma cleaning_error_is_not_caught_witness :
  analysis (sample_world
              (Returned (mk_frame (MultiIndex [("Close", ["A"]); ("Close", ["B"])])
                                  [mk_row 1 [NaN; NaN]]))
              (Returned ok_response) (Returned fifteen_stories))
           true "A B" 1 30
  = ([yf_download_call "A B" 1 30],
     Raised (mk_exception TypeError "arg must be a list, tuple, 1-d array, or Series"))
  /\ (exc_class (mk_exception TypeError "arg must be a list, tuple, 1-d array, or Series")
      = TypeError
      \/ exc_class (mk_exception TypeError "arg must be a list, tuple, 1-d array, or Series")
         = KeyError).
Proof.
  apply (cleaning_error_is_not_caught
           (sample_world
              (Returned (mk_frame (MultiIndex [("Close", ["A"]); ("Close", ["B"])])
                                  [mk_row 1 [NaN; NaN]]))
              (Returned ok_response) (Returned fifteen_stories))
           "A B" 1 30
           (mk_frame (MultiIndex [("Close", ["A"]); ("Close", ["B"])])
                     [mk_row 1 [NaN; NaN]])).
  - discriminate.
  - reflexivity.
  - reflexivity.
  - reflexivity.
Defined.

(** *** The metrics block on any frame *)











(** A text in the latest close stops the metrics at once; [None] in the
    close before it stops them after the last price; a [None] in the High
    column is skipped by [max]; a previous close of zero in an object
    column raises [ZeroDivisionError] after the last price; a frame without
    a Close column raises [KeyError]. *)
Example key_metrics_on_objects :
  key_metrics demo_world
    (ohlcv_frame [day 1 100 110 98 99 1000;
                  mk_row 2 [Str "n/a"; NaN; NaN; NaN; NaN]]%float)
  = ([st_error "Not enough data to calculate metrics."], Returned tt)
  /\ key_metrics demo_world
       (ohlcv_frame [mk_row 1 [PyNone; NaN; NaN; NaN; NaN];
                     day 2 105 120 101 100 1500]%float)
     = ([st_metric 1 (rupee "Last Price") (money 105) None;
         st_error "Not enough data to calculate metrics."], Returned tt)
  /\ key_metrics demo_world
       (ohlcv_frame [mk_row 1 [Float 100; PyNone; Float 98; Float 99; Float 1000];
                     day 2 105 120 101 100 1500]%float)
     = ([st_metric 1 (rupee "Last Price") (money 105) None;
         st_metric 2 (rupee "Change") (money 5)
           (Some (percent ((105 - 100) / 100 * 100)));
         st_metric 3 (rupee "Period High") (money 120) None;
         st_metric 4 (rupee "Period Low") (money 98) None]%float, Returned tt)
  /\ key_metrics demo_world
       (ohlcv_frame [mk_row 1 [Str "n/a"; NaN; NaN; NaN; NaN];
                     day 2 0 1 1 1 1; day 3 5 6 4 5 1]%float)
     = ([st_metric 1 (rupee "Last Price") (money 5) None],
        Raised (mk_exception ZeroDivisionError "float division by zero"))
  /\ key_metrics demo_world
       (mk_frame (FlatIndex ["Open"; "High"; "Low"]) [mk_row 1 [NaN; NaN; NaN]])
     = ([], Raised (mk_exception KeyError "'Close'")).
Proof. repeat split; reflexivity. Qed.

(** *** Rendering a cleaned frame *)

Lemma key_metrics_cleaned (X : externals) (df d : DataFrame) :
  clean X df = Returned d ->
  rows d <> [] ->
  exists metrics,
    key_metrics X d = (metrics, Returned tt)
    /\ Forall (fun ev => is_metric ev = true) metrics
    /\ length metrics = 4.
Proof.
  intros H Hne.
  destruct (exists_last Hne) as (l1 & latest & Hrows).
  destruct l1 as [| r l1].
  - eexists. split; [| split].
    + now apply key_metrics_single with (X := X) (df := df) (latest := latest).
    + repeat constructor.
    + reflexivity.
  - destruct (exists_last (l := r :: l1)) as (earlier & prev & E); [discriminate |].
    rewrite E, <- app_assoc in Hrows. cbn in Hrows.
    eexists. split; [| split].
    + now apply key_metrics_several with (X := X) (df := df) (earlier := earlier)
                                          (prev := prev) (latest := latest).
    + repeat constructor.
    + reflexivity.
Qed.

Lemma render_no_volume (X : externals) (df d : DataFrame) (ticker : string) :
  clean X df = Returned d ->
  rows d <> [] ->
  contains (column_names d) "Volume" = false ->
  exists metrics,
    key_metrics X d = (metrics, Returned tt)
    /\ Forall (fun ev => is_metric ev = true) metrics
    /\ render X ticker d =
         ([st_subheader "Key Performance Metrics"; st_columns 4] ++ metrics
          ++ [st_markdown "<hr>";
              st_subheader "Price Action: Candlestick Chart";
              st_plotly_chart
                (Candlestick (map label (rows d))
                   (map (fun r => Float (field d "Open" r)) (rows d))
                   (map (fun r => Float (field d "High" r)) (rows d))
                   (map (fun r => Float (field d "Low" r)) (rows d))
                   (map (fun r => Float (field d "Close" r)) (rows d)))
                (ticker ++ " Price Movement");
              st_subheader "Trading Volume Analysis"],
          Raised (mk_exception KeyError "'Volume'")).
Proof.
  intros H Hne Hvol.
  destruct (key_metrics_cleaned X df d H Hne) as (metrics & Hkm & Hall & _).
  exists metrics. split; [assumption |]. split; [assumption |].
  assert (Hv : get_series d "Volume" = Raised (mk_exception KeyError "'Volume'")).
  { unfold get_series, locate. now rewrite (contains_false_indexer _ _ Hvol). }
  unfold render. rewrite (clean_not_empty _ _ _ H Hne), Hkm.
  rewrite (get_series_price X df d "Open" H) by (cbn; auto).
  rewrite (get_series_price X df d "High" H) by (cbn; auto).
  rewrite (get_series_price X df d "Low" H) by (cbn; auto).
  rewrite (get_series_price X df d "Close" H) by (cbn; auto).
  rewrite Hv. reflexivity.
Qed.

(** X9.  A cleaned frame without a Volume column gets its metrics and its
    candlestick chart; then the volume chart raises [KeyError], which
    nothing catches: no volume chart, no table and no download button
    follow. *)
Theorem render_stops_at_missing_volume (X : externals) (df d : DataFrame)
    (ticker : string) :
  clean X df = Returned d ->
  rows d <> [] ->
  contains (column_names d) "Volume" = false ->
  snd (render X ticker d) = Raised (mk_exception KeyError "'Volume'")
  /\ length (filter is_metric (fst (render X ticker d))) = 4
  /\ filter is_rendering (filter (fun ev => negb (is_metric ev)) (fst (render X ticker d)))
     = [st_plotly_chart
          (Candlestick (map label (rows d))
             (map (fun r => Float (field d "Open" r)) (rows d))
             (map (fun r => Float (field d "High" r)) (rows d))
             (map (fun r => Float (field d "Low" r)) (rows d))
             (map (fun r => Float (field d "Close" r)) (rows d)))
          (ticker ++ " Price Movement")].
Proof.
  intros H Hne Hvol.
  destruct (render_no_volume X df d ticker H Hne Hvol) as (metrics & Hkm & Hall & ->).
  destruct (key_metrics_cleaned X df d H Hne) as (metrics' & Hkm' & _ & Hlen).
  assert (metrics' = metrics) by congruence. subst metrics'.
  cbn [fst snd]. split; [reflexivity |].
  assert (Hm : filter is_metric metrics = metrics)
    by (apply filter_all; exact (proj1 (Forall_forall _ _) Hall)).
  assert (Hn : filter (fun ev => negb (is_metric ev)) metrics = []).
  { apply filter_nil. eapply Forall_impl; [| exact Hall]. cbn. now intros ev ->. }
  split.
  - rewrite !filter_app, Hm. cbn. rewrite app_nil_r. exact Hlen.
  - rewrite !filter_app, Hn. reflexivity.
Qed.

Lemma render_stops_at_missing_volume_witness :
  snd (render demo_world "ABC" ohlc_only_frame) = Raised (mk_exception KeyError "'Volume'")
  /\ length (filter is_metric (fst (render demo_world "ABC" ohlc_only_frame))) = 4
  /\ filter is_rendering
       (filter (fun ev => negb (is_metric ev)) (fst (render demo_world "ABC" ohlc_only_frame)))
     = [st_plotly_chart
          (Candlestick (map label (rows ohlc_only_frame))
             (map (fun r => Float (field ohlc_only_frame "Open" r)) (rows ohlc_only_frame))
             (map (fun r => Float (field ohlc_only_frame "High" r)) (rows ohlc_only_frame))
             (map (fun r => Float (field ohlc_only_frame "Low" r)) (rows ohlc_only_frame))
             (map (fun r => Float (field ohlc_only_frame "Close" r)) (rows ohlc_only_frame)))
          "ABC Price Movement"].
Proof.
  apply (render_stops_at_missing_volume
           demo_world ohlc_only_frame ohlc_only_frame "ABC" eq_refl).
  - discriminate.
  - reflexivity.
Defined.



(** *** What a run never does *)

Lemma metric_is_quiet (ev : event) :
  is_metric ev = true -> is_provider_call ev = false /\ is_error ev = false.
Proof. destruct ev; cbn; intros H; try discriminate; auto. Qed.

Lemma render_cleaned_quiet (X : externals) (df d : DataFrame) (ticker : string) :
  clean X df = Returned d ->
  rows d <> [] ->
  Forall (fun ev => is_provider_call ev = false /\ is_error ev = false)
         (fst (render X ticker d)).
Proof.
  intros H Hne.
  destruct (key_metrics_cleaned X df d H Hne) as (ms & Hkm & Hall & _).
  assert (Hq : Forall (fun ev => is_provider_call ev = false /\ is_error ev = false) ms).
  { eapply Forall_impl; [| exact Hall]. apply metric_is_quiet. }
  destruct (contains (column_names d) "Volume") eqn:Hvol.
  - destruct (render_cleaned X df d ticker H Hne Hvol) as (ms' & Hkm' & _ & ->).
    assert (ms' = ms) by congruence. subst ms'. cbn [fst].
    apply Forall_app. split; [repeat constructor |].
    apply Forall_app. split; [assumption | repeat constructor].
  - destruct (render_no_volume X df d ticker H Hne Hvol) as (ms' & Hkm' & _ & ->).
    assert (ms' = ms) by congruence. subst ms'. cbn [fst].
    apply Forall_app. split; [repeat constructor |].
    apply Forall_app. split; [assumption | repeat constructor].
Qed.

Lemma render_empty (X : externals) (ticker : string) (d : DataFrame) :
  rows d = [] ->
  render X ticker d =
    ([st_error "No valid data found after cleaning. Please check the ticker or date range."],
     Returned tt).
Proof. intros H. unfold render. now rewrite (empty_no_rows d H). Qed.

Lemma rows_nil_dec (d : DataFrame) : rows d = [] \/ rows d <> [].
Proof. destruct (rows d); [now left | right; discriminate]. Qed.

(** X11.  Whatever frame of float64, text and [None] cells the provider
    delivers, the error "Not enough data to calculate metrics." of lines
    128-129 is not shown: the frames that reach the metrics block are
    cleaned and have a row, their prices are float64, and on those the block
    raises nothing. *)
Theorem metrics_error_is_never_shown (X : externals) (analyze_button : bool)
    (ticker : string) (s e : Z) :
  ~ In (st_error "Not enough data to calculate metrics.")
       (fst (analysis X analyze_button ticker s e)).
Proof.
  destruct (analyze_button && negb (String.eqb ticker "")) eqn:Hgo.
  - apply andb_true_iff in Hgo. destruct Hgo as [-> Ht].
    apply negb_true_iff, String.eqb_neq in Ht.
    destruct (yf_download X ticker s e) as [df | exn] eqn:Hd.
    + rewrite (analysis_fetch_returned _ _ _ _ _ Ht Hd).
      destruct (empty df).
      * cbn. intros [H | [H | [H | []]]]; discriminate.
      * destruct (clean X df) as [d | exn] eqn:Hc.
        -- cbn [fst]. intros [H | Hin]; [discriminate |].
           destruct (rows_nil_dec d) as [Hr | Hr].
           ++ rewrite (render_empty X ticker d Hr) in Hin.
              destruct Hin as [H | []]. discriminate.
           ++ pose proof (render_cleaned_quiet X df d ticker Hc Hr) as Hq.
              apply (proj1 (Forall_forall _ _) Hq) in Hin. cbn in Hin.
              destruct Hin. discriminate.
        -- cbn. intros [H | []]. discriminate.
    + rewrite (analysis_fetch_raised _ _ _ _ _ Ht Hd).
      destruct (isinstance_Exception exn); cbn.
      * intros [H | [H | [H | []]]]; discriminate.
      * intros [H | []]. discriminate.
  - rewrite (analysis_idle _ _ _ _ _ Hgo). cbn. intros [H | []]. discriminate.
Qed.

Lemma provider_calls_of_analysis (X : externals) (analyze_button : bool)
    (ticker : string) (s e : Z) :
  provider_calls (fst (analysis X analyze_button ticker s e))
  = if analyze_button && negb (String.eqb ticker "") then 1 else 0.
Proof.
  unfold provider_calls.
  destruct (analyze_button && negb (String.eqb ticker "")) eqn:Hgo.
  - apply andb_true_iff in Hgo. destruct Hgo as [-> Ht].
    apply negb_true_iff, String.eqb_neq in Ht.
    destruct (yf_download X ticker s e) as [df | exn] eqn:Hd.
    + rewrite (analysis_fetch_returned _ _ _ _ _ Ht Hd).
      destruct (empty df); [reflexivity |].
      destruct (clean X df) as [d | exn] eqn:Hc; [| reflexivity].
      cbn [fst filter is_provider_call length]. f_equal.
      destruct (rows_nil_dec d) as [Hr | Hr].
      * now rewrite (render_empty X ticker d Hr).
      * replace (filter is_provider_call (fst (render X ticker d))) with (@nil event);
          [reflexivity |].
        symmetry. apply filter_nil.
        eapply Forall_impl; [| exact (render_cleaned_quiet X df d ticker Hc Hr)].
        cbn. now intros ev [H _].
    + rewrite (analysis_fetch_raised _ _ _ _ _ Ht Hd).
      destruct (isinstance_Exception exn); reflexivity.
  - now rewrite (analysis_idle _ _ _ _ _ Hgo).
Qed.

(** X12.  A run of the analysis block asks [get_stock_data] for the
    provider's data at most once, whatever follows (no second query after a
    failure or an empty answer), and not at all when the button is not
    pressed or the ticker is empty. *)
Theorem provider_is_queried_at_most_once (X : externals) (analyze_button : bool)
    (ticker : string) (s e : Z) :
  provider_calls (fst (analysis X analyze_button ticker s e))
  <= (if analyze_button && negb (String.eqb ticker "") then 1 else 0).
Proof. rewrite provider_calls_of_analysis. apply Nat.le_refl. Qed.
